(** * vispy.app.canvas: Canvas, CanvasBackend and the canvas event payloads

    A shallow embedding of [src/vispy/app/canvas.py].  Python values are
    a small inductive universe, exceptions are an error type, and the
    methods of [Canvas] are computations in a state-and-error monad whose
    state is the Canvas object together with the log of the calls it made
    on its collaborators (the Application and the backend). *)

From Stdlib Require Import ZArith List String Ascii Bool Lia PeanoNat.
Import ListNotations.
Open Scope string_scope.
Open Scope Z_scope.
Set Warnings "-register-all".

(** ** Python values *)

(** The values that flow through the module: [None], booleans, integers,
    strings, tuples, lists and plain objects, which have an identity and
    nothing else (native handles, toolkit events).  Floats are left out. *)
Inductive PyVal : Type :=
| VNone
| VBool (b : bool)
| VInt (n : Z)
| VStr (s : string)
| VTuple (items : list PyVal)
| VList (items : list PyVal)
| VObj (id : positive).

(** Exception classes raised in this module or by the builtins it uses. *)
Inductive exn_class : Type :=
| ValueError
| TypeError
| IndexError
| AttributeError
| NotImplementedError
| OtherError (name : string).

(** An exception: its class and its message.  [None] as message stands
    for the text the interpreter generates for a builtin failure, which
    differs between Python versions and is not modelled. *)
Record exn : Type := Raise { exn_cls : exn_class; exn_msg : option string }.

(** The outcome of an expression: an exception or a value. *)
Inductive Res (X : Type) : Type :=
| Err (e : exn)
| Ok (x : X).
Arguments Err {X} e.
Arguments Ok {X} x.

Definition res_bind {X Y : Type} (r : Res X) (k : X -> Res Y) : Res Y :=
  match r with
  | Err e => Err e
  | Ok x => k x
  end.

Definition is_ok {X : Type} (r : Res X) : bool :=
  match r with Ok _ => true | Err _ => false end.

Definition builtin_error {X : Type} (c : exn_class) : Res X :=
  Err (Raise c None).

(** [a == b].  Numbers compare by value ([True == 1]), strings by
    content, tuples with tuples and lists with lists element by element,
    objects by identity; values of different kinds are unequal. *)
Fixpoint py_eq (a b : PyVal) {struct a} : bool :=
  let fix seq_eq (l m : list PyVal) {struct l} : bool :=
    match l, m with
    | [], [] => true
    | x :: l', y :: m' => py_eq x y && seq_eq l' m'
    | _, _ => false
    end in
  match a, b with
  | VNone, VNone => true
  | VBool x, VBool y => Bool.eqb x y
  | VBool x, VInt y => (if x then 1 else 0) =? y
  | VInt x, VBool y => x =? (if y then 1 else 0)
  | VInt x, VInt y => x =? y
  | VStr s, VStr t => String.eqb s t
  | VTuple l, VTuple m => seq_eq l m
  | VList l, VList m => seq_eq l m
  | VObj i, VObj j => Pos.eqb i j
  | _, _ => false
  end.

(** [a != b]. *)
Definition py_ne (a b : PyVal) : bool := negb (py_eq a b).

(** Element-wise equality of two sequences, as [==] on tuples does it. *)
Fixpoint seq_eq (l m : list PyVal) : bool :=
  match l, m with
  | [], [] => true
  | x :: l', y :: m' => py_eq x y && seq_eq l' m'
  | _, _ => false
  end.

(** The one-character strings of a string, in order. *)
Fixpoint chars (s : string) : list PyVal :=
  match s with
  | EmptyString => []
  | String c s' => VStr (String c EmptyString) :: chars s'
  end.

(** [len(v)]. *)
Definition py_len (v : PyVal) : Res nat :=
  match v with
  | VTuple l | VList l => Ok (List.length l)
  | VStr s => Ok (String.length s)
  | _ => builtin_error TypeError
  end.

(** [v[i]] for a non-negative constant index. *)
Definition py_getitem (v : PyVal) (i : nat) : Res PyVal :=
  match v with
  | VTuple l | VList l =>
      match nth_error l i with
      | Some x => Ok x
      | None => builtin_error IndexError
      end
  | VStr s =>
      match String.get i s with
      | Some c => Ok (VStr (String c EmptyString))
      | None => builtin_error IndexError
      end
  | _ => builtin_error TypeError
  end.

(** [v[:n]]. *)
Definition py_slice_to (v : PyVal) (n : nat) : Res PyVal :=
  match v with
  | VTuple l => Ok (VTuple (firstn n l))
  | VList l => Ok (VList (firstn n l))
  | VStr s => Ok (VStr (String.substring 0 n s))
  | _ => builtin_error TypeError
  end.

(** [v[n:]]. *)
Definition py_slice_from (v : PyVal) (n : nat) : Res PyVal :=
  match v with
  | VTuple l => Ok (VTuple (skipn n l))
  | VList l => Ok (VList (skipn n l))
  | VStr s => Ok (VStr (String.substring n (String.length s - n) s))
  | _ => builtin_error TypeError
  end.

(** [None in v]: on a tuple or list, whether some element is [None];
    a string refuses a left operand that is not a string. *)
Definition py_None_in (v : PyVal) : Res bool :=
  match v with
  | VTuple l | VList l => Ok (existsb (py_eq VNone) l)
  | _ => builtin_error TypeError
  end.

(** The elements [*v] spreads into positional arguments. *)
Definition py_iter (v : PyVal) : Res (list PyVal) :=
  match v with
  | VTuple l | VList l => Ok l
  | VStr s => Ok (chars s)
  | _ => builtin_error TypeError
  end.

(** Truth value of [v], as [or] tests it. *)
Definition py_truthy (v : PyVal) : bool :=
  match v with
  | VNone => false
  | VBool b => b
  | VInt n => negb (n =? 0)
  | VStr s => negb (String.eqb s "")
  | VTuple l | VList l => negb (Nat.eqb (List.length l) 0)
  | VObj _ => true
  end.

(** [a or b]. *)
Definition py_or (a b : PyVal) : PyVal := if py_truthy a then a else b.

(** [tuple(v)]. *)
Definition py_tuple (v : PyVal) : Res PyVal :=
  res_bind (py_iter v) (fun l => Ok (VTuple l)).

(** *** [int(v)] *)

(** The blanks [int] strips from both ends of a string: tab, line
    feed, vertical tab, form feed, carriage return and space. *)
Definition is_space (c : ascii) : bool :=
  let n := nat_of_ascii c in
  ((9 <=? n) && (n <=? 13) || (n =? 32))%nat.

Definition digit_of (c : ascii) : option Z :=
  let n := nat_of_ascii c in
  if ((48 <=? n) && (n <=? 57))%nat then Some (Z.of_nat n - 48) else None.

Definition underscore : ascii := ascii_of_nat 95.

Fixpoint lstrip (l : list ascii) : list ascii :=
  match l with
  | c :: l' => if is_space c then lstrip l' else l
  | [] => []
  end.

Definition strip (l : list ascii) : list ascii :=
  rev (lstrip (rev (lstrip l))).

(** Decimal digits, where one underscore may separate two digits.
    [acc] is the value read so far and [after_digit] tells whether the
    previous character was a digit. *)
Fixpoint digits (l : list ascii) (acc : Z) (after_digit : bool) : option Z :=
  match l with
  | [] => if after_digit then Some acc else None
  | c :: l' =>
      match digit_of c with
      | Some d => digits l' (10 * acc + d) true
      | None =>
          if Ascii.eqb c underscore && after_digit then digits l' acc false
          else None
      end
  end.

(** The integer a string denotes in base 10, if it denotes one. *)
Definition int_of_string (s : string) : option Z :=
  match strip (list_ascii_of_string s) with
  | c :: l' =>
      if Ascii.eqb c "-"%char then option_map Z.opp (digits l' 0 false)
      else if Ascii.eqb c "+"%char then digits l' 0 false
      else digits (c :: l') 0 false
  | [] => None
  end.

(** [int(v)]: an int is kept, a bool becomes 0 or 1, a string is parsed
    (a [ValueError] when it is no integer literal), anything else is a
    [TypeError]. *)
Definition py_int (v : PyVal) : Res Z :=
  match v with
  | VInt n => Ok n
  | VBool b => Ok (if b then 1 else 0)
  | VStr s =>
      match int_of_string s with
      | Some n => Ok n
      | None => builtin_error ValueError
      end
  | _ => builtin_error TypeError
  end.

(** ** The collaborators of a Canvas *)

(** Keyword arguments, in the order they were given. *)
Definition kwargs_t : Type := list (string * PyVal).

(** The operations of the backend contract, with their arguments. *)
Inductive backend_call : Type :=
| SetCurrent
| SwapBuffers
| SetTitle (title : PyVal)
| SetSize (w h : PyVal)
| SetLocation (x y : PyVal)
| SetVisible (visible : PyVal)
| Update
| Close
| GetGeometry
| GetNativeCanvas.

(** The method of [CanvasBackend] a call goes to. *)
Definition method_name (c : backend_call) : string :=
  match c with
  | SetCurrent => "_vispy_set_current"
  | SwapBuffers => "_vispy_swap_buffers"
  | SetTitle _ => "_vispy_set_title"
  | SetSize _ _ => "_vispy_set_size"
  | SetLocation _ _ => "_vispy_set_location"
  | SetVisible _ => "_vispy_set_visible"
  | Update => "_vispy_update"
  | Close => "_vispy_close"
  | GetGeometry => "_vispy_get_geometry"
  | GetNativeCanvas => "_vispy_get_native_canvas"
  end.

(** A backend class: the [_vispy_xxx] methods over the state [B] of one
    backend object.  A method returns a value or raises, and may change
    the object either way. *)
Class Backend (B : Type) : Type := {
  _vispy_set_current : B -> Res PyVal * B;
  _vispy_swap_buffers : B -> Res PyVal * B;
  _vispy_set_title : B -> PyVal -> Res PyVal * B;
  _vispy_set_size : B -> PyVal -> PyVal -> Res PyVal * B;
  _vispy_set_location : B -> PyVal -> PyVal -> Res PyVal * B;
  _vispy_set_visible : B -> PyVal -> Res PyVal * B;
  _vispy_update : B -> Res PyVal * B;
  _vispy_close : B -> Res PyVal * B;
  _vispy_get_geometry : B -> Res PyVal * B;
  _vispy_get_native_canvas : B -> Res PyVal * B
}.

(** Method dispatch. *)
Definition invoke {B : Type} {be : Backend B} (c : backend_call) (b : B)
  : Res PyVal * B :=
  match c with
  | SetCurrent => _vispy_set_current b
  | SwapBuffers => _vispy_swap_buffers b
  | SetTitle t => _vispy_set_title b t
  | SetSize w h => _vispy_set_size b w h
  | SetLocation x y => _vispy_set_location b x y
  | SetVisible v => _vispy_set_visible b v
  | Update => _vispy_update b
  | Close => _vispy_close b
  | GetGeometry => _vispy_get_geometry b
  | GetNativeCanvas => _vispy_get_native_canvas b
  end.

(** *** class CanvasBackend *)

(** An instance of the abstract class itself: its identity and the
    canvas it was given. *)
Record CanvasBackendObj : Type := {
  backend_id : positive;
  _vispy_canvas : positive
}.

(** [CanvasBackend.__init__(self, vispy_canvas, *args, **kwargs)], for
    the object allocated at [id]. *)
Definition CanvasBackend_init (id : positive) (vispy_canvas : positive)
    (args : list PyVal) (kwargs : kwargs_t) : CanvasBackendObj :=
  {| backend_id := id; _vispy_canvas := vispy_canvas |}.

Definition not_implemented (self : CanvasBackendObj)
  : Res PyVal * CanvasBackendObj :=
  (Err (Raise NotImplementedError (Some "")), self).

#[export] Instance CanvasBackend : Backend CanvasBackendObj := {|
  _vispy_set_current self := not_implemented self;
  _vispy_swap_buffers self := not_implemented self;
  _vispy_set_title self title := not_implemented self;
  _vispy_set_size self w h := not_implemented self;
  _vispy_set_location self x y := not_implemented self;
  _vispy_set_visible self visible := not_implemented self;
  _vispy_update self := not_implemented self;
  _vispy_close self := not_implemented self;
  _vispy_get_geometry self := not_implemented self;
  _vispy_get_native_canvas self := (Ok (VObj (backend_id self)), self)
|}.

(** *** The Application *)

(** What [create_widget] asks of [self._app], over the state [A] of the
    application: [use()], the [native] property, and the constructor
    [backend_module.CanvasBackend], which receives the canvas, the
    positional and the keyword arguments. *)
Class Application (A B : Type) : Type := {
  use : A -> Res PyVal * A;
  native_app : A -> Res PyVal * A;
  backend_module_CanvasBackend :
    A -> positive -> list PyVal -> kwargs_t -> Res B * A
}.

(** What a Canvas does to its collaborators, in the order it does it. *)
Inductive event : Type :=
| AppUse
| AppNative
| NewBackend (canvas : positive) (args : list PyVal) (kwargs : kwargs_t)
| BackendCall (c : backend_call).

(** The payload classes of this module, and the base class [Event]. *)
Inductive payload_class : Type :=
| EventCls | MouseEventCls | KeyEventCls | ResizeEventCls | PaintEventCls.

(** ** class Canvas *)

Section CanvasClass.

Context {A B : Type} {app_class : Application A B} {backend_class : Backend B}.

(** [vispy.app.default_app]. *)
Variable default_app : A.

(** The attributes of a Canvas object.  [_args] and [_kwargs] are
    [None] once [del] has removed them; [_backend] is [None] while the
    attribute holds Python's [None].  The backend and the application
    are held with their current state. *)
Record Canvas : Type := {
  canvas_id : positive;
  events : list (string * payload_class);
  _args : option (list PyVal);
  _kwargs : option kwargs_t;
  _backend : option B;
  _title : PyVal;
  _app : A
}.

(** The state a method runs in: the object and the calls made so far. *)
Record World : Type := { self : Canvas; log : list event }.

(** A method body: from a state to an outcome and the state it leaves. *)
Definition M (X : Type) : Type := World -> Res X * World.

Definition ret {X : Type} (x : X) : M X := fun w => (Ok x, w).

Definition raise {X : Type} (e : exn) : M X := fun w => (Err e, w).

Definition bind {X Y : Type} (m : M X) (k : X -> M Y) : M Y :=
  fun w =>
    match m w with
    | (Ok x, w') => k x w'
    | (Err e, w') => (Err e, w')
    end.

Definition lift {X : Type} (r : Res X) : M X := fun w => (r, w).

Notation "x <- m ;; k" := (bind m (fun x => k))
  (at level 61, m at next level, right associativity).
Notation "m ;;; k" := (bind m (fun _ => k))
  (at level 61, right associativity).

Definition with_backend (c : Canvas) (b : option B) : Canvas :=
  {| canvas_id := canvas_id c; events := events c; _args := _args c;
     _kwargs := _kwargs c; _backend := b; _title := _title c;
     _app := _app c |}.

Definition with_title (c : Canvas) (t : PyVal) : Canvas :=
  {| canvas_id := canvas_id c; events := events c; _args := _args c;
     _kwargs := _kwargs c; _backend := _backend c; _title := t;
     _app := _app c |}.

Definition with_app (c : Canvas) (a : A) : Canvas :=
  {| canvas_id := canvas_id c; events := events c; _args := _args c;
     _kwargs := _kwargs c; _backend := _backend c; _title := _title c;
     _app := a |}.

Definition without_args (c : Canvas) : Canvas :=
  {| canvas_id := canvas_id c; events := events c; _args := None;
     _kwargs := _kwargs c; _backend := _backend c; _title := _title c;
     _app := _app c |}.

Definition without_kwargs (c : Canvas) : Canvas :=
  {| canvas_id := canvas_id c; events := events c; _args := _args c;
     _kwargs := None; _backend := _backend c; _title := _title c;
     _app := _app c |}.

Definition update_self (f : Canvas -> Canvas) : M unit :=
  fun w => (Ok tt, {| self := f (self w); log := log w |}).

Definition emit (e : event) : World -> World :=
  fun w => {| self := self w; log := log w ++ [e] |}.

(** Reading an attribute that [del] may have removed. *)
Definition getattr {X : Type} (field : Canvas -> option X) (name : string)
  : M X :=
  fun w =>
    match field (self w) with
    | Some x => (Ok x, w)
    | None =>
        (Err (Raise AttributeError
                (Some ("'Canvas' object has no attribute '" ++ name ++ "'"))),
         w)
    end.

(** [self._backend.<name>]: the attribute lookup on the backend.  On
    [None] it is the interpreter that raises. *)
Definition backend_attr (name : string) : M B :=
  fun w =>
    match _backend (self w) with
    | Some b => (Ok b, w)
    | None =>
        (Err (Raise AttributeError
                (Some ("'NoneType' object has no attribute '" ++ name ++ "'"))),
         w)
    end.

(** The call itself, on the backend object [b]: it is logged, and the
    object is left in the state the method gave it. *)
Definition apply_backend (c : backend_call) (b : B) : M PyVal :=
  fun w =>
    let (r, b') := invoke c b in
    (r, emit (BackendCall c)
          {| self := with_backend (self w) (Some b'); log := log w |}).

(** [self._backend._vispy_xxx(...)] with arguments already evaluated. *)
Definition call_backend (c : backend_call) : M PyVal :=
  b <- backend_attr (method_name c) ;; apply_backend c b.

Definition app_use : M PyVal :=
  fun w =>
    let (r, a') := use (_app (self w)) in
    (r, emit AppUse {| self := with_app (self w) a'; log := log w |}).

Definition app_native : M PyVal :=
  fun w =>
    let (r, a') := native_app (_app (self w)) in
    (r, emit AppNative {| self := with_app (self w) a'; log := log w |}).

Definition new_backend (args : list PyVal) (kwargs : kwargs_t) : M B :=
  fun w =>
    let (r, a') :=
      backend_module_CanvasBackend (_app (self w)) (canvas_id (self w))
        args kwargs in
    (r, emit (NewBackend (canvas_id (self w)) args kwargs)
          {| self := with_app (self w) a'; log := log w |}).

(** [Canvas.create_widget]. *)
Definition create_widget : M PyVal :=
  fun w =>
    match _backend (self w) with
    | None =>
        (app_use ;;;
         app_native ;;;
         args <- getattr _args "_args" ;;
         kwargs <- getattr _kwargs "_kwargs" ;;
         b <- new_backend args kwargs ;;
         update_self (fun c => with_backend c (Some b)) ;;;
         update_self without_args ;;;
         update_self without_kwargs ;;;
         ret VNone) w
    | Some _ => (Ok VNone, w)
    end.

(** The channels of the emitter group and the payload class of each. *)
Definition channels : list (string * payload_class) :=
  [("initialize", EventCls); ("resize", ResizeEventCls);
   ("paint", PaintEventCls); ("mouse_press", MouseEventCls);
   ("mouse_release", MouseEventCls); ("mouse_move", MouseEventCls);
   ("mouse_wheel", MouseEventCls); ("key_press", KeyEventCls);
   ("key_release", KeyEventCls); ("stylus", EventCls);
   ("touch", EventCls); ("close", EventCls)].

(** [Canvas.__init__(self, *args, **kwargs)] for the object allocated
    at [id].  The keywords [app] and [create_widget] are given apart
    from the others: [kwargs.pop] takes them out of the very dict that
    [self._kwargs] holds, so [_kwargs] is left with [kwargs], the
    other keywords.  The outcome is that of the constructor; the state
    is the object as the constructor left it. *)
Definition Canvas_init (id : positive) (args : list PyVal)
    (app : option A) (create_widget_kw : option PyVal) (kwargs : kwargs_t)
  : Res PyVal * World :=
  let c := {| canvas_id := id; events := channels; _args := Some args;
              _kwargs := Some kwargs; _backend := None;
              _title := VStr "";
              _app := match app with Some a => a | None => default_app end |} in
  let w := {| self := c; log := [] |} in
  if py_truthy
       (match create_widget_kw with Some v => v | None => VBool true end)
  then create_widget w
  else (Ok VNone, w).

(** [Canvas.app]. *)
Definition app : M A := fun w => (Ok (_app (self w)), w).

(** [Canvas.native]. *)
Definition native : M PyVal := call_backend GetNativeCanvas.

(** [Canvas.geometry], read. *)
Definition geometry : M PyVal := call_backend GetGeometry.

(** [req != cur and not None in req], for the two halves of a
    geometry; the membership test runs only when the halves differ. *)
Definition changed_and_given (req cur : PyVal) : Res bool :=
  if py_ne req cur
  then res_bind (py_None_in req) (fun has_none => Ok (negb has_none))
  else Ok false.

(** [Canvas.geometry], set to [args]. *)
Definition geometry_set (args : PyVal) : M PyVal :=
  n <- lift (py_len args) ;;
  if Nat.eqb n 2 then
    b <- backend_attr "_vispy_set_location" ;;
    xy <- lift (py_iter args) ;;
    match xy with
    | [x; y] => apply_backend (SetLocation x y) b ;;; ret VNone
    | _ => lift (builtin_error TypeError)
    end
  else if Nat.eqb n 4 then
    cur <- call_backend GetGeometry ;;
    req_pos <- lift (py_slice_to args 2) ;;
    cur_pos <- lift (py_slice_to cur 2) ;;
    move <- lift (changed_and_given req_pos cur_pos) ;;
    (if move : bool then
       b <- backend_attr "_vispy_set_location" ;;
       x <- lift (py_getitem args 0) ;;
       y <- lift (py_getitem args 1) ;;
       apply_backend (SetLocation x y) b
     else ret VNone) ;;;
    req_size <- lift (py_slice_from args 2) ;;
    cur_size <- lift (py_slice_from cur 2) ;;
    resize <- lift (changed_and_given req_size cur_size) ;;
    (if resize : bool then
       b <- backend_attr "_vispy_set_size" ;;
       w <- lift (py_getitem args 2) ;;
       h <- lift (py_getitem args 3) ;;
       apply_backend (SetSize w h) b
     else ret VNone) ;;;
    ret VNone
  else raise (Raise ValueError (Some "Setting geometry requires 2 or 4 values.")).

(** [Canvas.title], read. *)
Definition title : M PyVal := fun w => (Ok (_title (self w)), w).

(** [Canvas.title], set to [t]. *)
Definition title_set (t : PyVal) : M PyVal :=
  update_self (fun c => with_title c t) ;;;
  call_backend (SetTitle t) ;;;
  ret VNone.

(** [Canvas.show(visible=True)]. *)
Definition show (visible : option PyVal) : M PyVal :=
  call_backend
    (SetVisible (match visible with Some v => v | None => VBool true end)).

(** [Canvas.update]. *)
Definition update : M PyVal := call_backend Update.

(** [Canvas.close]. *)
Definition close : M PyVal := call_backend Close ;;; ret VNone.

(** The state after the call [c] that left the backend as [b]. *)
Definition after_call (w : World) (c : backend_call) (b : B) : World :=
  {| self := with_backend (self w) (Some b);
     log := log w ++ [BackendCall c] |}.

(** *** Scripts

    The statements a caller can run on a canvas. *)
Inductive canvas_op : Type :=
| DoCreateWidget
| GetNative
| GetGeometryProp
| SetGeometryProp (args : PyVal)
| GetTitle
| SetTitleProp (t : PyVal)
| DoShow (visible : option PyVal)
| DoUpdate
| DoClose.

Definition run_op (o : canvas_op) : M PyVal :=
  match o with
  | DoCreateWidget => create_widget
  | GetNative => native
  | GetGeometryProp => geometry
  | SetGeometryProp args => geometry_set args
  | GetTitle => title
  | SetTitleProp t => title_set t
  | DoShow v => show v
  | DoUpdate => update
  | DoClose => close
  end.

(** A script whose statements each sit in their own [try]/[except]:
    a statement that raises leaves its effects and the next one runs. *)
Fixpoint run_ops (ops : list canvas_op) (w : World) : World :=
  match ops with
  | [] => w
  | o :: ops' => run_ops ops' (snd (run_op o w))
  end.

(** The value most recently passed to the title setter by a script
    that starts with the title [t0]. *)
Fixpoint last_title (ops : list canvas_op) (t0 : PyVal) : PyVal :=
  match ops with
  | [] => t0
  | SetTitleProp t :: ops' => last_title ops' t
  | _ :: ops' => last_title ops' t0
  end.

(** A method body that leaves the cached title as it found it,
    whatever its outcome. *)
Definition keeps_title {X : Type} (m : M X) : Prop :=
  forall w, _title (self (snd (m w))) = _title (self w).

(** [n] calls of [create_widget] in a row, failures caught. *)
Fixpoint create_widget_times (n : nat) (w : World) : World :=
  match n with
  | O => w
  | S n' => create_widget_times n' (snd (create_widget w))
  end.

End CanvasClass.

Arguments Canvas A B : clear implicits.
Arguments World A B : clear implicits.

(** ** Event payloads *)

(** The base class [Event] lives in [vispy.event].  A payload class only
    calls its constructor, [Event.__init__(self, type, **kwds)], which
    sets up the base part [E] of the object or raises. *)
Class EventBase (E : Type) : Type := {
  Event_init : PyVal -> kwargs_t -> Res E
}.

(** The value of an optional parameter: the argument or the default. *)
Definition arg (default : PyVal) (given : option PyVal) : PyVal :=
  match given with
  | Some v => v
  | None => default
  end.

Module MouseEvent.
Section MouseEventClass.

Context {E : Type} {event_class : EventBase E}.

Record t : Type := {
  base : E;
  _pos : PyVal;
  _button : PyVal;
  _modifiers : PyVal;
  _delta : PyVal;
  native : PyVal
}.

(** [(0,0) if (pos is None) else (pos[0], pos[1])]. *)
Definition pos_or_origin (pos : PyVal) : Res PyVal :=
  match pos with
  | VNone => Ok (VTuple [VInt 0; VInt 0])
  | _ =>
      res_bind (py_getitem pos 0) (fun x =>
      res_bind (py_getitem pos 1) (fun y =>
      Ok (VTuple [x; y])))
  end.

(** [int(button) if (button is not None) else None]. *)
Definition int_or_None (button : PyVal) : Res PyVal :=
  match button with
  | VNone => Ok VNone
  | _ => res_bind (py_int button) (fun n => Ok (VInt n))
  end.

(** [MouseEvent.__init__(self, type, pos=None, button=None,
    modifiers=None, delta=0, native=None, **kwds)]. *)
Definition __init__ (type : PyVal)
    (pos button modifiers delta native : option PyVal) (kwds : kwargs_t)
  : Res t :=
  res_bind (Event_init type kwds) (fun base =>
  res_bind (pos_or_origin (arg VNone pos)) (fun _pos =>
  res_bind (int_or_None (arg VNone button)) (fun _button =>
  res_bind (py_tuple (py_or (arg VNone modifiers) (VTuple []))) (fun _modifiers =>
  res_bind (py_int (arg (VInt 0) delta)) (fun d =>
  Ok {| base := base; _pos := _pos; _button := _button;
        _modifiers := _modifiers; _delta := VInt d;
        native := arg VNone native |}))))).

(** The read-only properties. *)
Definition pos (self : t) : PyVal := _pos self.
Definition button (self : t) : PyVal := _button self.
Definition modifiers (self : t) : PyVal := _modifiers self.
Definition delta (self : t) : PyVal := _delta self.

End MouseEventClass.
Arguments t E : clear implicits.
End MouseEvent.

Module ResizeEvent.
Section ResizeEventClass.

Context {E : Type} {event_class : EventBase E}.

Record t : Type := {
  base : E;
  size : PyVal;
  native : PyVal
}.

(** [ResizeEvent.__init__(self, type, size, native=None, **kwds)]. *)
Definition __init__ (type : PyVal) (size : PyVal) (native : option PyVal)
    (kwds : kwargs_t) : Res t :=
  res_bind (Event_init type kwds) (fun base =>
  res_bind (py_tuple size) (fun size =>
  Ok {| base := base; size := size; native := arg VNone native |})).

End ResizeEventClass.
Arguments t E : clear implicits.
End ResizeEvent.

Module PaintEvent.
Section PaintEventClass.

Context {E : Type} {event_class : EventBase E}.

Record t : Type := {
  base : E;
  region : PyVal;
  native : PyVal
}.

(** [PaintEvent.__init__(self, type, region=None, native=None, **kwds)]. *)
Definition __init__ (type : PyVal) (region native : option PyVal)
    (kwds : kwargs_t) : Res t :=
  res_bind (Event_init type kwds) (fun base =>
  Ok {| base := base; region := arg VNone region;
        native := arg VNone native |}).

End PaintEventClass.
Arguments t E : clear implicits.
End PaintEvent.

(** ** Concrete collaborators

    Instances of the interfaces above on which the methods can be run. *)

(** Modelled from the spec: [Event.__init__] of [vispy.event], which is
    not part of this file.  The spec gives an event "an event-kind tag
    (string)" and "zero or more extra named fields attached dynamically
    at construction time and exposed as read attributes". *)
Record EventObj : Type := {
  event_type : PyVal;
  event_attrs : kwargs_t
}.

#[export] Instance PlainEvent : EventBase EventObj := {|
  Event_init type kwds := Ok {| event_type := type; event_attrs := kwds |}
|}.

(** A backend that does what the contract asks on a window kept in
    memory: it remembers its geometry, title and visibility. *)
Record WindowObj : Type := {
  win_x : PyVal;
  win_y : PyVal;
  win_w : PyVal;
  win_h : PyVal;
  win_title : PyVal;
  win_visible : PyVal
}.

#[export] Instance WindowBackend : Backend WindowObj := {|
  _vispy_set_current self := (Ok VNone, self);
  _vispy_swap_buffers self := (Ok VNone, self);
  _vispy_set_title self title :=
    (Ok VNone,
     {| win_x := win_x self; win_y := win_y self; win_w := win_w self;
        win_h := win_h self; win_title := title;
        win_visible := win_visible self |});
  _vispy_set_size self w h :=
    (Ok VNone,
     {| win_x := win_x self; win_y := win_y self; win_w := w; win_h := h;
        win_title := win_title self; win_visible := win_visible self |});
  _vispy_set_location self x y :=
    (Ok VNone,
     {| win_x := x; win_y := y; win_w := win_w self; win_h := win_h self;
        win_title := win_title self; win_visible := win_visible self |});
  _vispy_set_visible self visible :=
    (Ok VNone,
     {| win_x := win_x self; win_y := win_y self; win_w := win_w self;
        win_h := win_h self; win_title := win_title self;
        win_visible := visible |});
  _vispy_update self := (Ok VNone, self);
  _vispy_close self := (Ok VNone, self);
  _vispy_get_geometry self :=
    (Ok (VTuple [win_x self; win_y self; win_w self; win_h self]), self);
  _vispy_get_native_canvas self := (Ok (VObj 2), self)
|}.

(** A window at [(x, y)] of size [(w, h)]. *)
Definition window (x y w h : Z) : WindowObj :=
  {| win_x := VInt x; win_y := VInt y; win_w := VInt w; win_h := VInt h;
     win_title := VStr ""; win_visible := VBool false |}.

(** An application whose backend module builds such windows, 100 by 100
    at the origin.  Its state counts the backends it has built. *)
#[export] Instance WindowApp : Application nat WindowObj := {|
  use a := (Ok VNone, a);
  native_app a := (Ok (VObj 1), a);
  backend_module_CanvasBackend a canvas args kwargs :=
    (Ok (window 0 0 100 100), S a)
|}.

(** An application whose backend module offers the abstract class
    itself, none of whose operations is implemented. *)
#[export] Instance AbstractApp : Application nat CanvasBackendObj := {|
  use a := (Ok VNone, a);
  native_app a := (Ok (VObj 1), a);
  backend_module_CanvasBackend a canvas args kwargs :=
    (Ok (CanvasBackend_init 3 canvas args kwargs), S a)
|}.

(** A realized canvas on the backend object [b], with an empty log. *)
Definition realized {B : Type} (b : B) : World nat B :=
  {| self := {| canvas_id := 1; events := channels; _args := None;
                _kwargs := None; _backend := Some b; _title := VStr "";
                _app := O |};
     log := [] |}.

(** The calls on the backend among the entries of a log. *)
Fixpoint backend_calls (l : list event) : list backend_call :=
  match l with
  | [] => []
  | BackendCall c :: l' => c :: backend_calls l'
  | _ :: l' => backend_calls l'
  end.

(** The number of backend instantiations among the entries of a log. *)
Fixpoint instantiations (l : list event) : nat :=
  match l with
  | [] => O
  | NewBackend _ _ _ :: l' => S (instantiations l')
  | _ :: l' => instantiations l'
  end.

(** A backend whose every answer is fixed in advance: [answer] gives
    the outcome of each call, and the object never changes. *)
Record ScriptedObj : Type := { answer : backend_call -> Res PyVal }.

#[export] Instance ScriptedBackend : Backend ScriptedObj := {|
  _vispy_set_current self := (answer self SetCurrent, self);
  _vispy_swap_buffers self := (answer self SwapBuffers, self);
  _vispy_set_title self title := (answer self (SetTitle title), self);
  _vispy_set_size self w h := (answer self (SetSize w h), self);
  _vispy_set_location self x y := (answer self (SetLocation x y), self);
  _vispy_set_visible self visible := (answer self (SetVisible visible), self);
  _vispy_update self := (answer self Update, self);
  _vispy_close self := (answer self Close, self);
  _vispy_get_geometry self := (answer self GetGeometry, self);
  _vispy_get_native_canvas self := (answer self GetNativeCanvas, self)
|}.

(** A widget embedded in a window of its own toolkit: it reports the
    geometry [(0, 0, 100, 100)] and can be resized, and every other
    operation, the move among them, raises [NotImplementedError]. *)
Definition embedded_widget : ScriptedObj :=
  {| answer c :=
       match c with
       | GetGeometry => Ok (VTuple [VInt 0; VInt 0; VInt 100; VInt 100])
       | SetSize _ _ => Ok VNone
       | _ => Err (Raise NotImplementedError (Some ""))
       end |}.

(** A backend whose geometry query returns [None]. *)
Definition geometryless : ScriptedObj :=
  {| answer c := Ok VNone |}.

(** An application that cannot build a backend: the constructor of its
    backend class raises. *)
#[export] Instance BrokenApp : Application nat ScriptedObj := {|
  use a := (Ok VNone, a);
  native_app a := (Ok (VObj 1), a);
  backend_module_CanvasBackend a canvas args kwargs :=
    (Err (Raise (OtherError "RuntimeError") (Some "no display")), S a)
|}.

(** An [Event] base class that wants its type to be a string and
    raises [TypeError] otherwise. *)
#[export] Instance StrictEvent : EventBase EventObj | 10 := {|
  Event_init type kwds :=
    match type with
    | VStr _ => Ok {| event_type := type; event_attrs := kwds |}
    | _ => Err (Raise TypeError (Some "type must be a string"))
    end
|}.

(** The state of the two halves of a Canvas's life: without a backend
    it holds its construction arguments, with one it has deleted them. *)
Definition consistent {A B : Type} (c : Canvas A B) : Prop :=
  match _backend c with
  | None => _args c <> None /\ _kwargs c <> None
  | Some _ => _args c = None /\ _kwargs c = None
  end.

Definition is_create_widget (o : canvas_op) : bool :=
  match o with
  | DoCreateWidget => true
  | _ => false
  end.

(** A method body that, run on a realized canvas, leaves a realized
    canvas, instantiates nothing, calls nothing on the application and
    leaves the construction arguments alone. *)
Definition stays_realized {A B X : Type} (m : @M A B X) : Prop :=
  forall w b,
    _backend (self w) = Some b ->
    (exists b', _backend (self (snd (m w))) = Some b') /\
    _args (self (snd (m w))) = _args (self w) /\
    _kwargs (self (snd (m w))) = _kwargs (self w) /\
    _app (self (snd (m w))) = _app (self w) /\
    instantiations (log (snd (m w))) = instantiations (log w).

(** Whether [v[:n]] is defined: tuples, lists and strings can be sliced. *)
Definition sliceable (v : PyVal) : bool :=
  match v with
  | VTuple _ | VList _ | VStr _ => true
  | _ => false
  end.

(** ** Facts about the builtins *)

Example int_of_string_ex1 : int_of_string " -12_3 " = Some (-123).
Proof. reflexivity. Qed.

Example int_of_string_ex2 : int_of_string "1__2" = None.
Proof. reflexivity. Qed.

Example py_eq_ex1 :
  py_eq (VTuple [VInt 1; VBool false]) (VTuple [VBool true; VInt 0]) = true.
Proof. reflexivity. Qed.

Example py_eq_ex2 : py_eq (VTuple [VInt 1]) (VList [VInt 1]) = false.
Proof. reflexivity. Qed.

Lemma py_eq_tuple : forall l m, py_eq (VTuple l) (VTuple m) = seq_eq l m.
Proof.
  intros l m. reflexivity.
Qed.

Lemma seq_eq_firstn : forall n l m,
  seq_eq l m = true -> seq_eq (firstn n l) (firstn n m) = true.
Proof.
  induction n as [|n IH]; intros l m H; [reflexivity|].
  destruct l as [|x l]; destruct m as [|y m]; simpl in *;
    try discriminate; try reflexivity.
  apply andb_prop in H. destruct H as [Hxy H].
  rewrite Hxy. simpl. auto.
Qed.

Lemma seq_eq_skipn : forall n l m,
  seq_eq l m = true -> seq_eq (skipn n l) (skipn n m) = true.
Proof.
  induction n as [|n IH]; intros l m H; [exact H|].
  destruct l as [|x l]; destruct m as [|y m]; simpl in *;
    try discriminate; try reflexivity.
  apply andb_prop in H. destruct H as [_ H]. auto.
Qed.

Lemma py_eq_None : forall v, py_eq VNone v = true <-> v = VNone.
Proof.
  intros v; destruct v; simpl; split; intros H;
    try discriminate; reflexivity.
Qed.

Lemma None_in_pair : forall x y,
  existsb (py_eq VNone) [x; y] = false <-> x <> VNone /\ y <> VNone.
Proof.
  intros x y. cbn [existsb]. rewrite orb_false_r, orb_false_iff.
  split.
  - intros [Hx Hy]. split; intros ->; discriminate.
  - intros [Hx Hy]. split.
    + destruct (py_eq VNone x) eqn:E; [|reflexivity].
      apply py_eq_None in E. contradiction.
    + destruct (py_eq VNone y) eqn:E; [|reflexivity].
      apply py_eq_None in E. contradiction.
Qed.



Lemma chars_length : forall s, List.length (chars s) = String.length s.
Proof. induction s; simpl; congruence. Qed.

Lemma chars_nth : forall s i,
  nth_error (chars s) i =
  option_map (fun c => VStr (String c EmptyString)) (String.get i s).
Proof.
  induction s as [|c s IH]; intros [|i]; simpl; auto.
Qed.

(** A value of length 2 spreads into its two items. *)
Lemma py_len_two : forall v,
  py_len v = Ok 2%nat ->
  exists x y, py_iter v = Ok [x; y] /\
              py_getitem v 0 = Ok x /\ py_getitem v 1 = Ok y.
Proof.
  intros v H. destruct v; simpl in H; try discriminate.
  - pose proof (chars_length s) as L. pose proof (chars_nth s) as N.
    injection H as H. rewrite H in L.
    destruct (chars s) as [|x [|y [|z l]]] eqn:C; simpl in L; try discriminate.
    exists x, y. simpl. rewrite C. split; [reflexivity|].
    pose proof (N 0%nat) as N0. pose proof (N 1%nat) as N1.
    simpl in N0, N1.
    destruct (String.get 0 s); simpl in N0; try discriminate.
    destruct (String.get 1 s); simpl in N1; try discriminate.
    split; congruence.
  - destruct items as [|x [|y [|z l]]]; simpl in H; try discriminate.
    exists x, y. auto.
  - destruct items as [|x [|y [|z l]]]; simpl in H; try discriminate.
    exists x, y. auto.
Qed.

(** ** Properties of Canvas *)

Section CanvasProperties.

Context {A B : Type} {app_class : Application A B} {backend_class : Backend B}.

Implicit Types (w : World A B) (b : B) (c : backend_call).

Lemma call_backend_realized : forall w c b,
  _backend (self w) = Some b ->
  call_backend c w = (fst (invoke c b), after_call w c (snd (invoke c b))).
Proof.
  intros w c b H. unfold call_backend, bind, backend_attr, apply_backend.
  rewrite H. destruct (invoke c b) as [r b']. reflexivity.
Qed.

Lemma call_backend_unrealized : forall w c,
  _backend (self w) = None ->
  call_backend c w =
  (Err (Raise AttributeError
          (Some ("'NoneType' object has no attribute '" ++ method_name c ++ "'"))),
   w).
Proof.
  intros w c H. unfold call_backend, bind, backend_attr. rewrite H.
  reflexivity.
Qed.

(** *** The geometry setter *)

Ltac run_monad :=
  unfold geometry_set, call_backend, bind, lift, ret, raise, backend_attr,
    apply_backend, emit, update_self;
  cbn [py_len List.length Nat.eqb py_slice_to py_slice_from py_getitem
       nth_error self log with_backend _backend fst snd];
  change (firstn 2 [?x; ?y; ?wd; ?h]) with [x; y];
  change (skipn 2 [?x; ?y; ?wd; ?h]) with [wd; h].



(** X7.  When the move raises, the exception leaves the setter at once
    and the size is not looked at. *)
Lemma geometry_set_four_move_raises : forall w b b1 b2 x y wd h cur e,
  _backend (self w) = Some b ->
  invoke GetGeometry b = (Ok (VTuple cur), b1) ->
  changed_and_given (VTuple [x; y]) (VTuple (firstn 2 cur)) = Ok true ->
  invoke (SetLocation x y) b1 = (Err e, b2) ->
  geometry_set (VTuple [x; y; wd; h]) w =
    (Err e, after_call (after_call w GetGeometry b1) (SetLocation x y) b2).
Proof.
  intros w b b1 b2 x y wd h cur e Hb Hg Hm Hl.
  run_monad. rewrite Hb, Hg. run_monad. rewrite Hm. run_monad.
  rewrite Hl. reflexivity.
Qed.

(** C2, as the code has it.  Setting the geometry to a 4-tuple equal
    to the geometry the backend reports calls neither
    [_vispy_set_location] nor [_vispy_set_size]: the one call on the
    backend is the query [_vispy_get_geometry], and the setter
    returns normally. *)
Theorem geometry_set_same_only_queries : forall w b b1 items cur,
  _backend (self w) = Some b ->
  invoke GetGeometry b = (Ok cur, b1) ->
  List.length items = 4%nat ->
  py_eq (VTuple items) cur = true ->
  geometry_set (VTuple items) w = (Ok VNone, after_call w GetGeometry b1) /\
  backend_calls (log (snd (geometry_set (VTuple items) w))) =
    (backend_calls (log w) ++ [GetGeometry])%list.
Proof.
  intros w b b1 items cur Hb Hg Hlen Heq.
  destruct items as [|x [|y [|wd [|h [|z l]]]]]; try discriminate Hlen.
  destruct cur as [| | | |cs| |]; try discriminate Heq.
  rewrite py_eq_tuple in Heq.
  assert (Hp : py_eq (VTuple [x; y]) (VTuple (firstn 2 cs)) = true).
  { rewrite py_eq_tuple. exact (seq_eq_firstn 2 _ _ Heq). }
  assert (Hs : py_eq (VTuple [wd; h]) (VTuple (skipn 2 cs)) = true).
  { rewrite py_eq_tuple. exact (seq_eq_skipn 2 _ _ Heq). }
  assert (Hrun : geometry_set (VTuple [x; y; wd; h]) w =
                 (Ok VNone, after_call w GetGeometry b1)).
  { run_monad. rewrite Hb, Hg. run_monad.
    unfold changed_and_given, py_ne. rewrite Hp, Hs. reflexivity. }
  split; [exact Hrun|].
  rewrite Hrun. cbn [snd after_call log].
  clear. induction (log w) as [|ev l IH]; [reflexivity|].
  destruct ev; cbn [backend_calls app]; rewrite <- ?app_comm_cons;
    cbn [backend_calls]; rewrite ?IH; reflexivity.
Qed.

(** C3, as the code has it.  An argument whose length is neither 2
    nor 4 makes the setter raise [ValueError] with the message
    'Setting geometry requires 2 or 4 values.'; no call is made and
    the canvas is left as it was, realized or not. *)
Theorem geometry_set_bad_length : forall w args n,
  py_len args = Ok n ->
  n <> 2%nat ->
  n <> 4%nat ->
  geometry_set args w =
    (Err (Raise ValueError (Some "Setting geometry requires 2 or 4 values.")),
     w).
Proof.
  intros w args n Hlen H2 H4.
  unfold geometry_set, bind, lift, raise. rewrite Hlen.
  apply Nat.eqb_neq in H2. apply Nat.eqb_neq in H4.
  rewrite H2, H4. reflexivity.
Qed.

(** C10.  On a realized canvas a 2-element argument goes straight to
    one [_vispy_set_location] call that receives the two elements as
    they are, [None] included; the geometry is not queried and nothing
    else is called. *)
Theorem geometry_set_two_moves : forall w b args,
  _backend (self w) = Some b ->
  py_len args = Ok 2%nat ->
  exists x y,
    py_getitem args 0 = Ok x /\
    py_getitem args 1 = Ok y /\
    log (snd (geometry_set args w)) =
      (log w ++ [BackendCall (SetLocation x y)])%list /\
    snd (geometry_set args w) =
      after_call w (SetLocation x y) (snd (invoke (SetLocation x y) b)).
Proof.
  intros w b args Hb Hlen.
  destruct (py_len_two args Hlen) as (x & y & Hit & Hx & Hy).
  exists x, y. split; [exact Hx|]. split; [exact Hy|].
  unfold geometry_set, bind, lift, backend_attr, apply_backend, ret.
  rewrite Hlen. cbn [Nat.eqb]. rewrite Hb, Hit.
  destruct (invoke (SetLocation x y) b) as [[e|v] b2]; split; reflexivity.
Qed.

(** *** The title *)

Lemma keeps_title_ret : forall X (x : X), keeps_title (@ret A B X x).
Proof. intros X x w. reflexivity. Qed.

Lemma keeps_title_raise : forall X e, keeps_title (@raise A B X e).
Proof. intros X e w. reflexivity. Qed.

Lemma keeps_title_lift : forall X (r : Res X), keeps_title (@lift A B X r).
Proof. intros X r w. reflexivity. Qed.

Lemma keeps_title_bind : forall X Y (m : @M A B X) (k : X -> @M A B Y),
  keeps_title m -> (forall x, keeps_title (k x)) -> keeps_title (bind m k).
Proof.
  intros X Y m k Hm Hk w. unfold bind. specialize (Hm w).
  destruct (m w) as [[e|x] w1]; cbn [snd] in *; [exact Hm|].
  rewrite Hk. exact Hm.
Qed.

Lemma keeps_title_backend_attr : forall name, keeps_title (backend_attr (A:=A) (B:=B) name).
Proof.
  intros name w. unfold backend_attr.
  destruct (_backend (self w)); reflexivity.
Qed.

Lemma keeps_title_getattr : forall X (field : Canvas A B -> option X) name,
  keeps_title (getattr field name).
Proof.
  intros X field name w. unfold getattr.
  destruct (field (self w)); reflexivity.
Qed.

Lemma keeps_title_apply_backend : forall c b, keeps_title (apply_backend (A:=A) c b).
Proof.
  intros c b w. unfold apply_backend.
  destruct (invoke c b); reflexivity.
Qed.

Lemma keeps_title_update_self : forall f : Canvas A B -> Canvas A B,
  (forall cv, _title (f cv) = _title cv) -> keeps_title (update_self f).
Proof. intros f Hf w. cbn. apply Hf. Qed.

Lemma keeps_title_app_use : keeps_title (@app_use A B app_class).
Proof. intros w. unfold app_use. destruct (use _); reflexivity. Qed.

Lemma keeps_title_app_native : keeps_title (@app_native A B app_class).
Proof. intros w. unfold app_native. destruct (native_app _); reflexivity. Qed.

Lemma keeps_title_new_backend : forall args kwargs,
  keeps_title (@new_backend A B app_class args kwargs).
Proof.
  intros args kwargs w. unfold new_backend.
  destruct (backend_module_CanvasBackend _ _ _ _); reflexivity.
Qed.

Create HintDb title_frame.
Hint Resolve keeps_title_ret keeps_title_raise keeps_title_lift
  keeps_title_backend_attr keeps_title_getattr keeps_title_apply_backend
  keeps_title_app_use keeps_title_app_native keeps_title_new_backend
  : title_frame.

(** Splits a method body along its binds and branches. *)
Ltac frame_title :=
  repeat first
    [ progress auto with title_frame
    | apply keeps_title_bind; [|intros ?]
    | apply keeps_title_update_self; intros ?; reflexivity
    | match goal with
      | |- keeps_title (if ?c then _ else _) => destruct c
      | |- keeps_title (match ?l with _ => _ end) => destruct l
      end ].

Lemma keeps_title_call_backend : forall c, keeps_title (call_backend (A:=A) (B:=B) c).
Proof. intros c. unfold call_backend. frame_title. Qed.

Lemma keeps_title_geometry_set : forall args, keeps_title (geometry_set (A:=A) (B:=B) args).
Proof.
  intros args. pose proof keeps_title_call_backend.
  unfold geometry_set. frame_title.
Qed.

Lemma keeps_title_create_widget : keeps_title (@create_widget A B app_class).
Proof.
  intros w. unfold create_widget.
  destruct (_backend (self w)); [reflexivity|].
  assert (K : keeps_title
    (bind app_use (fun _ => bind app_native (fun _ =>
     bind (getattr _args "_args") (fun args =>
     bind (getattr _kwargs "_kwargs") (fun kwargs =>
     bind (new_backend args kwargs) (fun b0 =>
     bind (update_self (fun cv => with_backend cv (Some b0))) (fun _ =>
     bind (update_self without_args) (fun _ =>
     bind (update_self without_kwargs) (fun _ => ret VNone)))))))))).
  { frame_title. }
  apply K.
Qed.

(** Everything but the title setter leaves the cached title alone. *)
Lemma run_op_title : forall o w,
  _title (self (snd (run_op o w))) =
  match o with
  | SetTitleProp t => t
  | _ => _title (self w)
  end.
Proof.
  intros o w.
  destruct o; cbn [run_op];
    try (apply keeps_title_call_backend);
    try (apply keeps_title_geometry_set);
    try (apply keeps_title_create_widget);
    try reflexivity.
  - unfold title_set, bind, update_self.
    pose proof (keeps_title_call_backend (SetTitle t)
                  {| self := with_title (self w) t; log := log w |}) as K.
    destruct (call_backend (SetTitle t) _) as [[e|v] w1]; exact K.
  - unfold close. pose proof (keeps_title_call_backend Close w) as K.
    unfold bind. destruct (call_backend Close w) as [[e|v] w1]; exact K.
Qed.

Lemma run_ops_title : forall ops w,
  _title (self (run_ops ops w)) = last_title ops (_title (self w)).
Proof.
  induction ops as [|o ops IH]; intros w; [reflexivity|].
  cbn [run_ops]. rewrite IH, run_op_title.
  destruct o; reflexivity.
Qed.

(** C5.  On a canvas realized on [b], whatever the backend does:
    the title setter stores [t] in the cache and then calls
    [_vispy_set_title(t)] exactly once, also when [t] is the cached
    value already; the call runs on the canvas whose cache holds [t],
    and when it raises the exception goes to the caller with the
    cache still holding [t].  Reading the title after any script,
    failing statements included, gives the value most recently passed
    to the setter, or the initial one if there was none. *)
Theorem title_cached_then_pushed : forall w b t ops,
  _backend (self w) = Some b ->
  let cached := {| self := with_title (self w) t; log := log w |} in
  let pushed := invoke (SetTitle t) b in
  title_set t w =
    (match fst pushed with Ok _ => Ok VNone | Err e => Err e end,
     after_call cached (SetTitle t) (snd pushed)) /\
  log (snd (title_set t w)) = (log w ++ [BackendCall (SetTitle t)])%list /\
  fst (title (snd (title_set t w))) = Ok t /\
  fst (title (run_ops ops w)) = Ok (last_title ops (_title (self w))).
Proof.
  intros w b t ops Hb cached pushed.
  assert (Hrun : title_set t w =
    (match fst pushed with Ok _ => Ok VNone | Err e => Err e end,
     after_call cached (SetTitle t) (snd pushed))).
  { unfold title_set, bind, update_self, ret.
    rewrite (call_backend_realized _ (SetTitle t) b) by exact Hb.
    subst pushed cached.
    destruct (invoke (SetTitle t) b) as [[e|v] b']; reflexivity. }
  split; [exact Hrun|].
  rewrite Hrun. cbn [snd fst after_call log self title].
  split; [reflexivity|]. split; [reflexivity|].
  unfold title. cbn [fst]. rewrite run_ops_title. reflexivity.
Qed.

(** *** The unrealized canvas *)

(** The geometry setter without a backend: the length is looked at
    first, and only the paths for 2 and 4 reach for the backend. *)
Lemma geometry_set_unrealized : forall w args n,
  _backend (self w) = None ->
  py_len args = Ok n ->
  geometry_set args w =
    (Err (Raise (if Nat.eqb n 2 || Nat.eqb n 4 then AttributeError
                 else ValueError)
            (Some (if Nat.eqb n 2
                   then "'NoneType' object has no attribute '_vispy_set_location'"
                   else if Nat.eqb n 4
                   then "'NoneType' object has no attribute '_vispy_get_geometry'"
                   else "Setting geometry requires 2 or 4 values."))),
     w).
Proof.
  intros w args n Hb Hlen.
  unfold geometry_set, call_backend, bind, lift, raise, backend_attr.
  rewrite Hlen.
  destruct (Nat.eqb n 2); [rewrite Hb; reflexivity|].
  destruct (Nat.eqb n 4); [rewrite Hb; reflexivity|].
  reflexivity.
Qed.

(** C8, as the code has it.  The class has no check of its own for an
    unrealized canvas.  While [_backend] is [None], reading [native]
    or [geometry], [show], [update], [close] and setting a geometry
    of length 2 or 4 raise the interpreter's [AttributeError] for the
    attribute looked up on [None], make no call and change nothing;
    setting the title raises it too, after the cache took the new
    title; setting a geometry of another length raises the
    [ValueError] of the setter. *)
Theorem unrealized_operations_raise : forall w,
  _backend (self w) = None ->
  let no_attribute name :=
    Err (Raise AttributeError
           (Some ("'NoneType' object has no attribute '" ++ name ++ "'"))) in
  native w = (no_attribute "_vispy_get_native_canvas", w) /\
  geometry w = (no_attribute "_vispy_get_geometry", w) /\
  (forall args, py_len args = Ok 2%nat ->
     geometry_set args w = (no_attribute "_vispy_set_location", w)) /\
  (forall args, py_len args = Ok 4%nat ->
     geometry_set args w = (no_attribute "_vispy_get_geometry", w)) /\
  (forall args n, py_len args = Ok n -> n <> 2%nat -> n <> 4%nat ->
     geometry_set args w =
       (Err (Raise ValueError
               (Some "Setting geometry requires 2 or 4 values.")), w)) /\
  (forall t, title_set t w =
     (no_attribute "_vispy_set_title",
      {| self := with_title (self w) t; log := log w |})) /\
  (forall visible, show visible w = (no_attribute "_vispy_set_visible", w)) /\
  update w = (no_attribute "_vispy_update", w) /\
  close w = (no_attribute "_vispy_close", w).
Proof.
  intros w Hb no_attribute. subst no_attribute.
  unfold native, geometry, show, update, close, title_set, bind, update_self.
  rewrite !(call_backend_unrealized w) by exact Hb.
  repeat split; try reflexivity.
  - intros args Hlen. rewrite (geometry_set_unrealized w args 2) by auto.
    reflexivity.
  - intros args Hlen. rewrite (geometry_set_unrealized w args 4) by auto.
    reflexivity.
  - intros args n Hlen H2 H4.
    rewrite (geometry_set_unrealized w args n) by auto.
    apply Nat.eqb_neq in H2. apply Nat.eqb_neq in H4.
    rewrite H2, H4. reflexivity.
  - intros t. rewrite call_backend_unrealized by exact Hb. reflexivity.
  - intros visible. rewrite call_backend_unrealized by exact Hb. reflexivity.
Qed.

(** *** Realization *)

Lemma instantiations_app : forall l1 l2 : list event,
  instantiations (l1 ++ l2) = (instantiations l1 + instantiations l2)%nat.
Proof.
  induction l1 as [|ev l1 IH]; intros l2; [reflexivity|].
  destruct ev; simpl; rewrite IH; reflexivity.
Qed.

(** With a backend in place [create_widget] does nothing. *)
Lemma create_widget_realized : forall w b,
  _backend (self w) = Some b -> create_widget w = (Ok VNone, w).
Proof. intros w b Hb. unfold create_widget. rewrite Hb. reflexivity. Qed.

Lemma create_widget_times_realized : forall n w b,
  _backend (self w) = Some b -> create_widget_times n w = w.
Proof.
  induction n as [|n IH]; intros w b Hb; [reflexivity|].
  cbn [create_widget_times].
  rewrite (create_widget_realized w b Hb). cbn [snd]. eauto.
Qed.

(** The first call on an unrealized canvas, when the application and
    the backend constructor return normally. *)
Lemma create_widget_first : forall w args kwargs v1 a1 v2 a2 b a3,
  _backend (self w) = None ->
  _args (self w) = Some args ->
  _kwargs (self w) = Some kwargs ->
  use (_app (self w)) = (Ok v1, a1) ->
  native_app a1 = (Ok v2, a2) ->
  backend_module_CanvasBackend a2 (canvas_id (self w)) args kwargs = (Ok b, a3) ->
  create_widget w =
    (Ok VNone,
     {| self := {| canvas_id := canvas_id (self w); events := events (self w);
                   _args := None; _kwargs := None; _backend := Some b;
                   _title := _title (self w); _app := a3 |};
        log := (log w ++ [AppUse; AppNative;
                          NewBackend (canvas_id (self w)) args kwargs])%list |}).
Proof.
  intros w args kwargs v1 a1 v2 a2 b a3 Hb Ha Hk Hu Hn Hc.
  unfold create_widget. rewrite Hb.
  unfold bind, app_use. rewrite Hu.
  unfold app_native, emit. cbn [self log with_app _app]. rewrite Hn.
  unfold getattr. cbn [self log with_app _args _kwargs]. rewrite Ha.
  cbn [self log with_app _args _kwargs]. rewrite Hk.
  unfold new_backend, emit. cbn [self log with_app _app canvas_id]. rewrite Hc.
  cbn. rewrite <- !app_assoc. reflexivity.
Qed.

(** C6.  On an unrealized canvas that still holds its construction
    arguments, when the first [create_widget] succeeds: the backend is
    instantiated once, with the canvas and those arguments; [_args]
    and [_kwargs] are deleted; a further call returns at once, calls
    nothing and changes nothing; so however many calls follow, the
    log holds exactly one instantiation more than before. *)
Theorem create_widget_once : forall w args kwargs v1 a1 v2 a2 b a3 n,
  _backend (self w) = None ->
  _args (self w) = Some args ->
  _kwargs (self w) = Some kwargs ->
  use (_app (self w)) = (Ok v1, a1) ->
  native_app a1 = (Ok v2, a2) ->
  backend_module_CanvasBackend a2 (canvas_id (self w)) args kwargs = (Ok b, a3) ->
  let w1 := snd (create_widget w) in
  fst (create_widget w) = Ok VNone /\
  _backend (self w1) = Some b /\
  _args (self w1) = None /\
  _kwargs (self w1) = None /\
  log w1 = (log w ++ [AppUse; AppNative;
                      NewBackend (canvas_id (self w)) args kwargs])%list /\
  create_widget w1 = (Ok VNone, w1) /\
  create_widget_times (S n) w = w1 /\
  instantiations (log (create_widget_times (S n) w)) =
    S (instantiations (log w)).
Proof.
  intros w args kwargs v1 a1 v2 a2 b a3 n Hb Ha Hk Hu Hn Hc w1.
  pose proof (create_widget_first w args kwargs v1 a1 v2 a2 b a3
                Hb Ha Hk Hu Hn Hc) as Hrun.
  assert (Hb1 : _backend (self w1) = Some b).
  { subst w1. rewrite Hrun. reflexivity. }
  assert (Htimes : create_widget_times (S n) w = w1).
  { cbn [create_widget_times]. fold w1.
    exact (create_widget_times_realized n w1 b Hb1). }
  split; [rewrite Hrun; reflexivity|].
  split; [exact Hb1|].
  split; [subst w1; rewrite Hrun; reflexivity|].
  split; [subst w1; rewrite Hrun; reflexivity|].
  split; [subst w1; rewrite Hrun; reflexivity|].
  split; [exact (create_widget_realized w1 b Hb1)|].
  split; [exact Htimes|].
  rewrite Htimes. subst w1. rewrite Hrun. cbn [snd log].
  rewrite instantiations_app. cbn [instantiations]. lia.
Qed.

End CanvasProperties.

(** ** Properties of the abstract backend *)

(** C9.  Every operation of the abstract [CanvasBackend] raises
    [NotImplementedError] and leaves the object as it was, except
    [_vispy_get_native_canvas], which returns the backend object
    itself. *)
Theorem CanvasBackend_defaults : forall (c : backend_call) (self : CanvasBackendObj),
  invoke c self =
  match c with
  | GetNativeCanvas => (Ok (VObj (backend_id self)), self)
  | _ => (Err (Raise NotImplementedError (Some "")), self)
  end.
Proof. intros c self. destruct c; reflexivity. Qed.

(** ** Properties of the event payloads *)

Section PayloadProperties.

Context {E : Type} {event_class : EventBase E}.

Lemma py_int_not_None : forall v n, py_int v = Ok n -> v <> VNone.
Proof. intros v n H ->. discriminate H. Qed.

(** Construction with a position, a button, modifiers and a delta
    that all pass their conversion. *)
Lemma MouseEvent_init_ok : forall type kwds base pos button modifiers delta native
                                  p b m d,
  Event_init type kwds = Ok base ->
  MouseEvent.pos_or_origin (arg VNone pos) = Ok p ->
  MouseEvent.int_or_None (arg VNone button) = Ok b ->
  py_tuple (py_or (arg VNone modifiers) (VTuple [])) = Ok m ->
  py_int (arg (VInt 0) delta) = Ok d ->
  MouseEvent.__init__ type pos button modifiers delta native kwds =
    Ok {| MouseEvent.base := base; MouseEvent._pos := p;
          MouseEvent._button := b; MouseEvent._modifiers := m;
          MouseEvent._delta := VInt d;
          MouseEvent.native := arg VNone native |}.
Proof.
  intros type kwds base pos button modifiers delta native p b m d
    Hbase Hp Hb Hm Hd.
  unfold MouseEvent.__init__. rewrite Hbase. cbn [res_bind].
  rewrite Hp. cbn [res_bind]. rewrite Hb. cbn [res_bind].
  rewrite Hm. cbn [res_bind]. rewrite Hd. reflexivity.
Qed.

(** The fields of a constructed event, read back from the arguments. *)
Lemma MouseEvent_init_inv : forall type kwds pos button modifiers delta native e,
  MouseEvent.__init__ type pos button modifiers delta native kwds = Ok e ->
  MouseEvent.pos_or_origin (arg VNone pos) = Ok (MouseEvent.pos e) /\
  MouseEvent.int_or_None (arg VNone button) = Ok (MouseEvent.button e) /\
  py_tuple (py_or (arg VNone modifiers) (VTuple [])) = Ok (MouseEvent.modifiers e) /\
  res_bind (py_int (arg (VInt 0) delta)) (fun d => Ok (VInt d)) =
    Ok (MouseEvent.delta e).
Proof.
  intros type kwds pos button modifiers delta native e H.
  unfold MouseEvent.__init__ in H.
  destruct (Event_init type kwds) as [ex|base]; [discriminate H|].
  cbn [res_bind] in H.
  destruct (MouseEvent.pos_or_origin (arg VNone pos)) as [ex|p];
    [discriminate H|].
  cbn [res_bind] in H.
  destruct (MouseEvent.int_or_None (arg VNone button)) as [ex|b];
    [discriminate H|].
  cbn [res_bind] in H.
  destruct (py_tuple _) as [ex|m]; [discriminate H|].
  cbn [res_bind] in H.
  destruct (py_int (arg (VInt 0) delta)) as [ex|d]; [discriminate H|].
  cbn [res_bind] in H. injection H as <-.
  repeat split; reflexivity.
Qed.

(** C7.  When [Event.__init__] accepts the type and the keywords:
    a MouseEvent built from the defaults alone has position [(0, 0)],
    no button, the empty modifier tuple and delta [0]; and of any
    MouseEvent that was built, the position is [(0, 0)] when [pos] was
    [None], the button is [None] when [button] was [None] and the int
    [int(button)] when that conversion gives one, the modifiers are
    [()] when [modifiers] was [None], and the delta is the int [0]
    when [delta] was left out.  With such a button and the other
    arguments left out the construction succeeds. *)
Theorem MouseEvent_defaults : forall type kwds base,
  Event_init type kwds = Ok base ->
  MouseEvent.__init__ type None None None None None kwds =
    Ok {| MouseEvent.base := base;
          MouseEvent._pos := VTuple [VInt 0; VInt 0];
          MouseEvent._button := VNone;
          MouseEvent._modifiers := VTuple [];
          MouseEvent._delta := VInt 0;
          MouseEvent.native := VNone |} /\
  (forall pos button modifiers delta native e,
     MouseEvent.__init__ type pos button modifiers delta native kwds = Ok e ->
     (arg VNone pos = VNone ->
        MouseEvent.pos e = VTuple [VInt 0; VInt 0]) /\
     (arg VNone button = VNone -> MouseEvent.button e = VNone) /\
     (forall n, py_int (arg VNone button) = Ok n ->
        MouseEvent.button e = VInt n) /\
     (arg VNone modifiers = VNone -> MouseEvent.modifiers e = VTuple []) /\
     (delta = None -> MouseEvent.delta e = VInt 0)) /\
  (forall b n,
     py_int b = Ok n ->
     exists e,
       MouseEvent.__init__ type None (Some b) None None None kwds = Ok e /\
       MouseEvent.button e = VInt n).
Proof.
  intros type kwds base Hbase. split; [|split].
  - apply MouseEvent_init_ok; auto.
  - intros pos button modifiers delta native e He.
    destruct (MouseEvent_init_inv _ _ _ _ _ _ _ _ He) as (Hp & Hb & Hm & Hd).
    repeat split.
    + intros Hnone. rewrite Hnone in Hp. cbn in Hp. congruence.
    + intros Hnone. rewrite Hnone in Hb. cbn in Hb. congruence.
    + intros n Hn. pose proof (py_int_not_None _ _ Hn) as Hne.
      unfold MouseEvent.int_or_None in Hb.
      destruct (arg VNone button); try contradiction;
        rewrite Hn in Hb; cbn [res_bind] in Hb; congruence.
    + intros Hnone. rewrite Hnone in Hm. cbn in Hm. congruence.
    + intros ->. cbn in Hd. congruence.
  - intros b n Hn. eexists. split.
    + apply MouseEvent_init_ok; try reflexivity; [exact Hbase|].
      cbn [arg]. pose proof (py_int_not_None _ _ Hn) as Hne.
      unfold MouseEvent.int_or_None.
      destruct b; try contradiction; rewrite Hn; reflexivity.
    + reflexivity.
Qed.

(** C4, as the code has it.  The constructors check no arity.  A
    MouseEvent keeps the first two elements of a tuple [pos] that has
    at least two and drops the others without a word; a tuple [pos]
    with fewer than two elements makes the constructor raise
    [IndexError], whatever the other arguments are, and no event is
    built.  A ResizeEvent stores a tuple [size] of any length as it
    is. *)
Theorem payload_arity_unchecked : forall type kwds base,
  Event_init type kwds = Ok base ->
  (forall x y rest native,
     MouseEvent.__init__ type (Some (VTuple (x :: y :: rest)))
       None None None native kwds =
     Ok {| MouseEvent.base := base;
           MouseEvent._pos := VTuple [x; y];
           MouseEvent._button := VNone;
           MouseEvent._modifiers := VTuple [];
           MouseEvent._delta := VInt 0;
           MouseEvent.native := arg VNone native |}) /\
  (forall x y rest button modifiers delta native e,
     MouseEvent.__init__ type (Some (VTuple (x :: y :: rest)))
       button modifiers delta native kwds = Ok e ->
     MouseEvent.pos e = VTuple [x; y]) /\
  (forall items button modifiers delta native,
     (List.length items < 2)%nat ->
     MouseEvent.__init__ type (Some (VTuple items))
       button modifiers delta native kwds =
     Err (Raise IndexError None)) /\
  (forall items native,
     ResizeEvent.__init__ type (VTuple items) native kwds =
     Ok {| ResizeEvent.base := base;
           ResizeEvent.size := VTuple items;
           ResizeEvent.native := arg VNone native |}).
Proof.
  intros type kwds base Hbase. split; [|split; [|split]].
  - intros x y rest native. apply MouseEvent_init_ok; auto.
  - intros x y rest button modifiers delta native e He.
    destruct (MouseEvent_init_inv _ _ _ _ _ _ _ _ He) as (Hp & _).
    cbn in Hp. congruence.
  - intros items button modifiers delta native Hlen.
    unfold MouseEvent.__init__. rewrite Hbase. cbn [res_bind arg].
    destruct items as [|x [|y rest]]; cbn in Hlen |- *;
      try reflexivity; lia.
  - intros items native. unfold ResizeEvent.__init__. rewrite Hbase.
    reflexivity.
Qed.

End PayloadProperties.

(** ** Runs on concrete collaborators *)



(** C2 as stated fails: the setter does call the backend, once, to read
    the geometry it compares with. *)
Lemma geometry_set_same_calls_backend :
  let b := window 10 10 100 100 in
  let args := VTuple [VInt 10; VInt 10; VInt 100; VInt 100] in
  fst (invoke GetGeometry b) = Ok args /\
  backend_calls (log (snd (geometry_set args (realized b)))) = [GetGeometry] /\
  List.length (backend_calls (log (snd (geometry_set args (realized b))))) <> O.
Proof.
  cbv zeta. split; [reflexivity|]. split; [reflexivity|]. discriminate.
Qed.

Lemma geometry_set_same_only_queries_witness :
  let b := window 10 10 100 100 in
  let items := [VInt 10; VInt 10; VInt 100; VInt 100] in
  _backend (self (realized b)) = Some b /\
  invoke GetGeometry b = (Ok (VTuple items), b) /\
  List.length items = 4%nat /\
  py_eq (VTuple items) (VTuple items) = true /\
  geometry_set (VTuple items) (realized b) =
    (Ok VNone, after_call (realized b) GetGeometry b) /\
  backend_calls (log (snd (geometry_set (VTuple items) (realized b)))) =
    (backend_calls (log (realized b)) ++ [GetGeometry])%list.
Proof.
  intros b items.
  split; [reflexivity|]. split; [reflexivity|]. split; [reflexivity|].
  split; [reflexivity|].
  apply (geometry_set_same_only_queries (realized b) b b items (VTuple items));
    reflexivity.
Defined.

(** C3 as stated fails: the message of the error is another one. *)
Lemma geometry_set_bad_length_message :
  fst (geometry_set (VTuple [VInt 1; VInt 2; VInt 3])
         (realized (window 10 10 100 100))) =
    Err (Raise ValueError (Some "Setting geometry requires 2 or 4 values.")) /\
  "Setting geometry requires 2 or 4 values." <>
    "geometry requires exactly 2 or 4 values".
Proof. split; [reflexivity | discriminate]. Qed.

Lemma geometry_set_bad_length_witness :
  let w := realized (window 10 10 100 100) in
  let args := VTuple [VInt 1; VInt 2; VInt 3] in
  py_len args = Ok 3%nat /\ 3%nat <> 2%nat /\ 3%nat <> 4%nat /\
  geometry_set args w =
    (Err (Raise ValueError (Some "Setting geometry requires 2 or 4 values.")),
     w).
Proof.
  intros w args.
  split; [reflexivity|]. split; [discriminate|]. split; [discriminate|].
  apply (geometry_set_bad_length w args 3%nat);
    [reflexivity | discriminate | discriminate].
Defined.

Lemma geometry_set_two_moves_witness :
  let b := window 10 10 100 100 in
  let args := VTuple [VNone; VInt 5] in
  _backend (self (realized b)) = Some b /\
  py_len args = Ok 2%nat /\
  exists x y,
    py_getitem args 0 = Ok x /\
    py_getitem args 1 = Ok y /\
    log (snd (geometry_set args (realized b))) =
      (log (realized b) ++ [BackendCall (SetLocation x y)])%list /\
    snd (geometry_set args (realized b)) =
      after_call (realized b) (SetLocation x y)
        (snd (invoke (SetLocation x y) b)).
Proof.
  intros b args. split; [reflexivity|]. split; [reflexivity|].
  apply (geometry_set_two_moves (realized b) b args); reflexivity.
Defined.

(** The title on a backend that implements nothing: every push raises,
    and the cache follows the setter all the same. *)
Lemma title_cached_then_pushed_witness :
  let b := CanvasBackend_init 3 1 [] [] in
  let w := realized b in
  let ops := [SetTitleProp (VStr "x"); DoUpdate; SetTitleProp (VStr "y");
              GetGeometryProp] in
  _backend (self w) = Some b /\
  fst (title_set (VStr "a") w) = Err (Raise NotImplementedError (Some "")) /\
  log (snd (title_set (VStr "a") w)) =
    [BackendCall (SetTitle (VStr "a"))] /\
  fst (title (snd (title_set (VStr "a") w))) = Ok (VStr "a") /\
  fst (title (run_ops ops w)) = Ok (VStr "y").
Proof.
  intros b w ops. split; [reflexivity|].
  destruct (title_cached_then_pushed w b (VStr "a") ops eq_refl)
    as (Hrun & Hlog & Hget & Hops).
  split; [rewrite Hrun; reflexivity|].
  split; [exact Hlog|]. split; [exact Hget | exact Hops].
Defined.

(** [Canvas(3, x=1, create_widget=False)], then [create_widget()] twice. *)
Lemma create_widget_once_witness :
  let w := snd (Canvas_init (app_class := WindowApp) O 1 [VInt 3] None
                  (Some (VBool false)) [("x", VInt 1)]) in
  let w1 := snd (create_widget w) in
  _backend (self w) = None /\
  _args (self w) = Some [VInt 3] /\
  _kwargs (self w) = Some [("x", VInt 1)] /\
  @use nat WindowObj WindowApp (_app (self w)) = (Ok VNone, O) /\
  @native_app nat WindowObj WindowApp O = (Ok (VObj 1), O) /\
  @backend_module_CanvasBackend nat WindowObj WindowApp
    O 1%positive [VInt 3] [("x", VInt 1)] =
    (Ok (window 0 0 100 100), 1%nat) /\
  _backend (self w1) = Some (window 0 0 100 100) /\
  _args (self w1) = None /\
  _kwargs (self w1) = None /\
  create_widget_times 2 w = w1 /\
  instantiations (log (create_widget_times 2 w)) = 1%nat.
Proof.
  intros w w1.
  split; [reflexivity|]. split; [reflexivity|]. split; [reflexivity|].
  split; [reflexivity|]. split; [reflexivity|]. split; [reflexivity|].
  destruct (@create_widget_once nat WindowObj WindowApp
              w [VInt 3] [("x", VInt 1)]
              VNone O (VObj 1) O (window 0 0 100 100) 1%nat 1%nat
              eq_refl eq_refl eq_refl eq_refl eq_refl eq_refl)
    as (_ & Hb & Ha & Hk & _ & _ & Ht & Hn).
  split; [exact Hb|]. split; [exact Ha|]. split; [exact Hk|].
  split; [exact Ht | exact Hn].
Defined.

(** C8 as stated fails: on an unrealized canvas a geometry of length 3
    is refused with the setter's own [ValueError], the very error a
    realized canvas gives, which says nothing of the missing backend. *)
Lemma unrealized_geometry_set_value_error :
  let w := snd (Canvas_init (app_class := WindowApp) O 1 [] None
                  (Some (VBool false)) []) in
  let args := VTuple [VInt 1; VInt 2; VInt 3] in
  _backend (self w) = None /\
  fst (geometry_set args w) =
    Err (Raise ValueError (Some "Setting geometry requires 2 or 4 values.")) /\
  fst (geometry_set args w) =
    fst (geometry_set args (realized (window 10 10 100 100))).
Proof. cbv zeta. split; [reflexivity|]. split; reflexivity. Qed.

Lemma unrealized_operations_raise_witness :
  let w := snd (Canvas_init (app_class := WindowApp) O 1 [] None
                  (Some (VBool false)) []) in
  _backend (self w) = None /\
  update w =
    (Err (Raise AttributeError
            (Some "'NoneType' object has no attribute '_vispy_update'")), w) /\
  close w =
    (Err (Raise AttributeError
            (Some "'NoneType' object has no attribute '_vispy_close'")), w).
Proof.
  intros w. split; [reflexivity|].
  destruct (unrealized_operations_raise w eq_refl)
    as (_ & _ & _ & _ & _ & _ & _ & Hu & Hc).
  split; [exact Hu | exact Hc].
Defined.

Lemma MouseEvent_defaults_witness :
  let base := {| event_type := VStr "mouse_press"; event_attrs := [] |} in
  Event_init (VStr "mouse_press") [] = Ok base /\
  MouseEvent.__init__ (VStr "mouse_press") None None None None None [] =
    Ok {| MouseEvent.base := base;
          MouseEvent._pos := VTuple [VInt 0; VInt 0];
          MouseEvent._button := VNone;
          MouseEvent._modifiers := VTuple [];
          MouseEvent._delta := VInt 0;
          MouseEvent.native := VNone |}.
Proof.
  intros base. split; [reflexivity|].
  exact (proj1 (MouseEvent_defaults (VStr "mouse_press") [] base eq_refl)).
Defined.

(** C4 as stated fails: a position and a size of three elements are
    both accepted. *)
Lemma wrong_arity_accepted :
  is_ok (MouseEvent.__init__ (VStr "mouse_press")
           (Some (VTuple [VInt 1; VInt 2; VInt 3])) None None None None [])
    = true /\
  option_map MouseEvent.pos
    (match MouseEvent.__init__ (VStr "mouse_press")
             (Some (VTuple [VInt 1; VInt 2; VInt 3])) None None None None []
     with Ok e => Some e | Err _ => None end)
    = Some (VTuple [VInt 1; VInt 2]) /\
  ResizeEvent.__init__ (VStr "resize") (VTuple [VInt 800; VInt 600; VInt 1])
    None [] =
    Ok {| ResizeEvent.base := {| event_type := VStr "resize"; event_attrs := [] |};
          ResizeEvent.size := VTuple [VInt 800; VInt 600; VInt 1];
          ResizeEvent.native := VNone |}.
Proof. split; [reflexivity|]. split; reflexivity. Qed.

Lemma payload_arity_unchecked_witness :
  let base := {| event_type := VStr "resize"; event_attrs := [] |} in
  Event_init (VStr "resize") [] = Ok base /\
  (forall items native,
     ResizeEvent.__init__ (VStr "resize") (VTuple items) native [] =
     Ok {| ResizeEvent.base := base;
           ResizeEvent.size := VTuple items;
           ResizeEvent.native := arg VNone native |}).
Proof.
  intros base. split; [reflexivity|].
  exact (proj2 (proj2 (proj2
           (payload_arity_unchecked (VStr "resize") [] base eq_refl)))).
Defined.


(** ** The life cycle of a Canvas *)

Section CanvasLifecycle.

Context {A B : Type} {app_class : Application A B} {backend_class : Backend B}.

Implicit Types (w : World A B) (b : B) (c : backend_call).

Lemma stays_realized_ret : forall X (x : X), stays_realized (@ret A B X x).
Proof. intros X x w b Hb. cbn. eauto 6. Qed.

Lemma stays_realized_raise : forall X e, stays_realized (@raise A B X e).
Proof. intros X e w b Hb. cbn. eauto 6. Qed.

Lemma stays_realized_lift : forall X (r : Res X), stays_realized (@lift A B X r).
Proof. intros X r w b Hb. cbn. eauto 6. Qed.

Lemma stays_realized_bind : forall X Y (m : @M A B X) (k : X -> @M A B Y),
  stays_realized m -> (forall x, stays_realized (k x)) ->
  stays_realized (bind m k).
Proof.
  intros X Y m k Hm Hk w b Hb. unfold bind.
  destruct (Hm w b Hb) as ((b1 & H1) & Ha & Hkw & Hap & Hi).
  destruct (m w) as [[e|x] w1]; cbn [snd] in *; [eauto 6|].
  destruct (Hk x w1 b1 H1) as (H1' & Ha' & Hkw' & Hap' & Hi').
  split; [exact H1'|]. repeat split; congruence.
Qed.

Lemma stays_realized_backend_attr : forall name,
  stays_realized (backend_attr (A:=A) (B:=B) name).
Proof.
  intros name w b Hb. unfold backend_attr. rewrite Hb. cbn. eauto 6.
Qed.

Lemma instantiations_snoc_call : forall (l : list event) c,
  instantiations (l ++ [BackendCall c]) = instantiations l.
Proof.
  intros l c. induction l as [|ev l IH]; [reflexivity|].
  destruct ev; simpl; rewrite IH; reflexivity.
Qed.

Lemma stays_realized_apply_backend : forall c b0,
  stays_realized (apply_backend (A:=A) c b0).
Proof.
  intros c b0 w b Hb. unfold apply_backend.
  destruct (invoke c b0) as [r b']. cbn.
  rewrite instantiations_snoc_call. eauto 6.
Qed.

Lemma stays_realized_with_title : forall t,
  stays_realized (update_self (A:=A) (B:=B) (fun cv => with_title cv t)).
Proof. intros t w b Hb. cbn. eauto 6. Qed.

Create HintDb realized_frame.
Hint Resolve stays_realized_ret stays_realized_raise stays_realized_lift
  stays_realized_backend_attr stays_realized_apply_backend
  stays_realized_with_title : realized_frame.

Ltac frame_realized :=
  repeat first
    [ progress auto with realized_frame
    | apply stays_realized_bind; [|intros ?]
    | match goal with
      | |- stays_realized (if ?c then _ else _) => destruct c
      | |- stays_realized (match ?l with _ => _ end) => destruct l
      end ].

Lemma stays_realized_call_backend : forall c,
  stays_realized (call_backend (A:=A) (B:=B) c).
Proof. intros c. unfold call_backend. frame_realized. Qed.

Lemma stays_realized_geometry_set : forall args,
  stays_realized (geometry_set (A:=A) (B:=B) args).
Proof.
  intros args. pose proof stays_realized_call_backend.
  unfold geometry_set. frame_realized.
Qed.

Lemma stays_realized_run_op : forall o, stays_realized (@run_op A B _ _ o).
Proof.
  intros o. pose proof stays_realized_call_backend.
  pose proof stays_realized_geometry_set.
  destruct o; cbn [run_op];
    unfold native, geometry, show, update, close, title_set;
    try solve [frame_realized].
  - intros w b Hb. unfold create_widget. rewrite Hb. cbn. eauto 6.
  - intros w b Hb. cbn. eauto 6.
Qed.

(** X1.  Realization is final.  Whatever script runs on a realized
    canvas, failing statements included, the canvas still has a
    backend afterwards, no backend was instantiated, and the
    application and the deleted construction arguments were not touched. *)
Theorem realized_forever : forall ops w b,
  _backend (self w) = Some b ->
  (exists b', _backend (self (run_ops ops w)) = Some b') /\
  instantiations (log (run_ops ops w)) = instantiations (log w) /\
  _app (self (run_ops ops w)) = _app (self w) /\
  _args (self (run_ops ops w)) = _args (self w) /\
  _kwargs (self (run_ops ops w)) = _kwargs (self w).
Proof.
  induction ops as [|o ops IH]; intros w b Hb; cbn [run_ops]; [eauto 6|].
  destruct (stays_realized_run_op o w b Hb) as ((b1 & H1) & Ha & Hk & Hap & Hi).
  destruct (IH _ b1 H1) as (H1' & Hi' & Hap' & Ha' & Hk').
  split; [exact H1'|]. repeat split; congruence.
Qed.

(** One statement other than [create_widget] on an unrealized canvas. *)
Lemma run_op_unrealized : forall o w,
  is_create_widget o = false ->
  _backend (self w) = None ->
  _backend (self (snd (run_op o w))) = None /\
  log (snd (run_op o w)) = log w /\
  _args (self (snd (run_op o w))) = _args (self w) /\
  _kwargs (self (snd (run_op o w))) = _kwargs (self w) /\
  _app (self (snd (run_op o w))) = _app (self w).
Proof.
  intros o w Ho Hb.
  destruct o; try discriminate Ho; cbn [run_op];
    unfold native, geometry, show, update, close, title_set, title,
      bind, update_self;
    rewrite ?(call_backend_unrealized w) by exact Hb;
    cbn [snd self log]; auto.
  - destruct (py_len args) as [e|n] eqn:Hlen.
    + unfold geometry_set, bind, lift. rewrite Hlen. cbn. auto.
    + rewrite (geometry_set_unrealized w args n Hb Hlen). cbn. auto.
  - rewrite call_backend_unrealized by exact Hb. cbn. auto.
Qed.

(** X2.  Only [create_widget] realizes a canvas.  A script that never
    calls it leaves an unrealized canvas unrealized, makes no call on
    the application or on a backend, and leaves the cached construction
    arguments in place. *)
Theorem unrealized_until_create_widget : forall ops w,
  forallb (fun o => negb (is_create_widget o)) ops = true ->
  _backend (self w) = None ->
  _backend (self (run_ops ops w)) = None /\
  log (run_ops ops w) = log w /\
  _args (self (run_ops ops w)) = _args (self w) /\
  _kwargs (self (run_ops ops w)) = _kwargs (self w).
Proof.
  induction ops as [|o ops IH]; intros w Hops Hb; cbn [run_ops]; [auto|].
  cbn [forallb] in Hops. apply andb_prop in Hops. destruct Hops as [Ho Hops].
  apply negb_true_iff in Ho.
  destruct (run_op_unrealized o w Ho Hb) as (Hb1 & Hl & Ha & Hk & _).
  destruct (IH _ Hops Hb1) as (Hb2 & Hl2 & Ha2 & Hk2).
  repeat split; congruence.
Qed.

(** The two ways a first [create_widget] can end. *)
Lemma create_widget_outcome : forall w args kwargs,
  _backend (self w) = None ->
  _args (self w) = Some args ->
  _kwargs (self w) = Some kwargs ->
  (exists v b, fst (create_widget w) = Ok v /\
     _backend (self (snd (create_widget w))) = Some b /\
     _args (self (snd (create_widget w))) = None /\
     _kwargs (self (snd (create_widget w))) = None) \/
  (exists e, fst (create_widget w) = Err e /\
     _backend (self (snd (create_widget w))) = None /\
     _args (self (snd (create_widget w))) = Some args /\
     _kwargs (self (snd (create_widget w))) = Some kwargs).
Proof.
  intros w args kwargs Hb Ha Hk.
  unfold create_widget. rewrite Hb.
  unfold bind, app_use.
  destruct (use (_app (self w))) as [[e|v1] a1]; cbn; [right; eauto|].
  unfold app_native. cbn.
  destruct (native_app a1) as [[e|v2] a2]; cbn; [right; eauto|].
  unfold getattr. cbn. rewrite Ha. cbn. rewrite Hk.
  unfold new_backend. cbn.
  destruct (backend_module_CanvasBackend a2 (canvas_id (self w)) args kwargs)
    as [[e|b] a3]; cbn; [right; eauto | left; eauto 6].
Qed.

(** X3.  [create_widget] on an unrealized canvas is all or nothing:
    when it returns, the canvas has a backend and both construction
    arguments are deleted; when it raises, at whichever step, the
    canvas has no backend and still holds both arguments, so that the
    call can be made again. *)
Theorem create_widget_all_or_nothing : forall w args kwargs,
  _backend (self w) = None ->
  _args (self w) = Some args ->
  _kwargs (self w) = Some kwargs ->
  match fst (create_widget w) with
  | Ok _ =>
      (exists b, _backend (self (snd (create_widget w))) = Some b) /\
      _args (self (snd (create_widget w))) = None /\
      _kwargs (self (snd (create_widget w))) = None
  | Err _ =>
      _backend (self (snd (create_widget w))) = None /\
      _args (self (snd (create_widget w))) = Some args /\
      _kwargs (self (snd (create_widget w))) = Some kwargs
  end.
Proof.
  intros w args kwargs Hb Ha Hk.
  destruct (create_widget_outcome w args kwargs Hb Ha Hk)
    as [(v & b & Hr & H1 & H2 & H3) | (e & Hr & H1 & H2 & H3)];
    rewrite Hr; eauto.
Qed.

Lemma consistent_run_op : forall o w,
  consistent (self w) -> consistent (self (snd (run_op o w))).
Proof.
  intros o w H. unfold consistent in *.
  destruct (_backend (self w)) as [b|] eqn:Hb.
  - destruct (stays_realized_run_op o w b Hb) as ((b1 & H1) & Ha & Hk & _).
    rewrite H1, Ha, Hk. exact H.
  - destruct (is_create_widget o) eqn:Ho.
    + destruct o; try discriminate Ho. cbn [run_op].
      destruct H as [Ha Hk].
      destruct (_args (self w)) as [args|] eqn:Ea; [|contradiction].
      destruct (_kwargs (self w)) as [kwargs|] eqn:Ek; [|contradiction].
      destruct (create_widget_outcome w args kwargs Hb Ea Ek)
        as [(v & b & _ & Hb1 & Ha1 & Hk1) | (e & _ & Hb1 & Ha1 & Hk1)];
        rewrite Hb1, Ha1, Hk1; [auto | split; discriminate].
    + destruct (run_op_unrealized o w Ho Hb) as (Hb1 & _ & Ha & Hk & _).
      rewrite Hb1, Ha, Hk. exact H.
Qed.

Lemma consistent_run_ops : forall ops w,
  consistent (self w) -> consistent (self (run_ops ops w)).
Proof.
  induction ops as [|o ops IH]; intros w H; cbn [run_ops]; [exact H|].
  apply IH. apply consistent_run_op. exact H.
Qed.

(** X4.  A Canvas object is always in one of two states, from the end
    of its constructor on (whether the constructor was asked to create
    the widget or not, and whether that worked or not) and through any
    script: either it has no backend and holds both [_args] and
    [_kwargs], or it has a backend and holds neither. *)
Theorem construction_arguments_invariant :
  forall default_app id args app kw kwargs ops,
    consistent
      (self (run_ops ops
               (snd (Canvas_init default_app id args app kw kwargs)))).
Proof.
  intros default_app id args app kw kwargs ops.
  apply consistent_run_ops. unfold Canvas_init.
  set (w0 := {| self := _; log := [] |}).
  assert (H0 : consistent (self w0)).
  { unfold consistent. cbn. split; discriminate. }
  destruct (py_truthy _); [|exact H0].
  exact (consistent_run_op DoCreateWidget w0 H0).
Qed.

(** X5.  A constructor that is not told otherwise realizes the canvas
    at once: when the application and the backend constructor return
    normally, the constructor activates the application,
    takes its native handle and then instantiates the backend with the
    canvas, [args] and [kwargs], in this order and once; the canvas it
    leaves has the backend, an empty title and no construction
    arguments, and a later [create_widget] does nothing. *)
Theorem Canvas_init_realizes :
  forall default_app id args app kw kwargs v1 a1 v2 a2 b a3,
    py_truthy (match kw with Some v => v | None => VBool true end) = true ->
    use (match app with Some a => a | None => default_app end) = (Ok v1, a1) ->
    native_app a1 = (Ok v2, a2) ->
    backend_module_CanvasBackend a2 id args kwargs = (Ok b, a3) ->
    let w := snd (Canvas_init default_app id args app kw kwargs) in
    fst (Canvas_init default_app id args app kw kwargs) = Ok VNone /\
    log w = [AppUse; AppNative; NewBackend id args kwargs] /\
    _backend (self w) = Some b /\
    _title (self w) = VStr "" /\
    _args (self w) = None /\
    _kwargs (self w) = None /\
    create_widget w = (Ok VNone, w).
Proof.
  intros default_app id args app kw kwargs v1 a1 v2 a2 b a3 Ht Hu Hn Hc w.
  subst w. unfold Canvas_init. rewrite Ht.
  set (w0 := {| self := _; log := [] |}).
  rewrite (create_widget_first w0 args kwargs v1 a1 v2 a2 b a3)
    by (try reflexivity; assumption).
  cbn [fst snd self log _backend _title _args _kwargs].
  repeat split; reflexivity.
Qed.

(** *** More of the geometry setter *)

Ltac run_setter :=
  unfold geometry_set, call_backend, bind, lift, ret, raise, backend_attr,
    apply_backend, emit, update_self;
  cbn [py_len List.length Nat.eqb py_slice_to py_slice_from py_getitem
       nth_error self log with_backend _backend fst snd];
  change (firstn 2 [?x; ?y; ?wd; ?h]) with [x; y];
  change (skipn 2 [?x; ?y; ?wd; ?h]) with [wd; h].

Lemma changed_and_given_list : forall l cur,
  changed_and_given (VList l) (VTuple cur) =
  Ok (negb (existsb (py_eq VNone) l)).
Proof. intros l cur. reflexivity. Qed.

(** X6.  The comparison with the current geometry only ever spares a
    call for a tuple.  A list never equals the tuple the backend
    reports, so for a 4-element list none of whose elements is [None]
    the move is always issued after the query, and the resize is
    always issued after the move unless the move raised; this also
    when the list holds the very values of the current geometry. *)
Theorem geometry_set_list_always_writes : forall w b b1 x y wd h cur,
  _backend (self w) = Some b ->
  invoke GetGeometry b = (Ok (VTuple cur), b1) ->
  x <> VNone -> y <> VNone -> wd <> VNone -> h <> VNone ->
  log (snd (geometry_set (VList [x; y; wd; h]) w)) =
    (log w ++ [BackendCall GetGeometry; BackendCall (SetLocation x y)]
           ++ (if is_ok (fst (invoke (SetLocation x y) b1))
               then [BackendCall (SetSize wd h)] else []))%list.
Proof.
  intros w b b1 x y wd h cur Hb Hg Hx Hy Hw Hh.
  assert (Nxy : existsb (py_eq VNone) [x; y] = false)
    by (apply None_in_pair; auto).
  assert (Nwh : existsb (py_eq VNone) [wd; h] = false)
    by (apply None_in_pair; auto).
  run_setter. rewrite Hb, Hg. run_setter.
  rewrite !changed_and_given_list, Nxy, Nwh. cbn [negb]. run_setter.
  destruct (invoke (SetLocation x y) b1) as [[e|v] b2]; cbn [is_ok fst].
  - run_setter. rewrite <- !app_assoc. reflexivity.
  - run_setter.
    destruct (invoke (SetSize wd h) b2) as [[e|v'] b3];
      run_setter; rewrite <- !app_assoc; reflexivity.
Qed.

(** X8.  When the geometry query raises, the 4-element setter raises
    the same exception; the query is the only call it made. *)
Theorem geometry_set_query_raises : forall w b b1 args e,
  _backend (self w) = Some b ->
  py_len args = Ok 4%nat ->
  invoke GetGeometry b = (Err e, b1) ->
  geometry_set args w = (Err e, after_call w GetGeometry b1).
Proof.
  intros w b b1 args e Hb Hlen Hg.
  unfold geometry_set, bind, lift. rewrite Hlen. cbn [Nat.eqb].
  rewrite (call_backend_realized w GetGeometry b Hb), Hg. reflexivity.
Qed.

(** X9.  When the backend answers the geometry query with something
    that cannot be sliced ([None], a number, a plain object), the
    setter given a 4-tuple raises [TypeError] right after the query and
    makes no other call. *)
Theorem geometry_set_unsliceable_answer : forall w b b1 x y wd h cur,
  _backend (self w) = Some b ->
  invoke GetGeometry b = (Ok cur, b1) ->
  sliceable cur = false ->
  geometry_set (VTuple [x; y; wd; h]) w =
    (Err (Raise TypeError None), after_call w GetGeometry b1).
Proof.
  intros w b b1 x y wd h cur Hb Hg Hcur.
  run_setter. rewrite Hb, Hg. run_setter.
  destruct cur; try discriminate Hcur; reflexivity.
Qed.

Lemma py_eq_refl : forall v, py_eq v v = true.
Proof.
  fix IH 1. intros v.
  assert (Hseq : forall l : list PyVal, seq_eq l l = true).
  { fix IHl 1. intros [|x l]; [reflexivity|].
    cbn [seq_eq]. rewrite (IH x), (IHl l). reflexivity. }
  destruct v as [|bv|n|s0|l|l|i].
  - reflexivity.
  - destruct bv; reflexivity.
  - cbn [py_eq]. apply Z.eqb_refl.
  - cbn [py_eq]. apply String.eqb_refl.
  - rewrite py_eq_tuple. apply Hseq.
  - change (py_eq (VList l) (VList l)) with (seq_eq l l). apply Hseq.
  - cbn [py_eq]. apply Pos.eqb_refl.
Qed.

(** X10.  Writing back the geometry just read changes nothing: when the
    backend gives the same 4-tuple to two queries in a row,
    [canvas.geometry = canvas.geometry] makes these two queries and no
    other call, and returns normally. *)
Theorem geometry_read_then_write : forall w b b1 b2 cur,
  _backend (self w) = Some b ->
  invoke GetGeometry b = (Ok (VTuple cur), b1) ->
  invoke GetGeometry b1 = (Ok (VTuple cur), b2) ->
  List.length cur = 4%nat ->
  let w1 := snd (geometry w) in
  fst (geometry w) = Ok (VTuple cur) /\
  fst (geometry_set (VTuple cur) w1) = Ok VNone /\
  log (snd (geometry_set (VTuple cur) w1)) =
    (log w ++ [BackendCall GetGeometry; BackendCall GetGeometry])%list.
Proof.
  intros w b b1 b2 cur Hb Hg1 Hg2 Hlen w1.
  assert (Hread : geometry w = (Ok (VTuple cur), after_call w GetGeometry b1)).
  { unfold geometry. rewrite (call_backend_realized w GetGeometry b Hb), Hg1.
    reflexivity. }
  subst w1. rewrite Hread. cbn [fst snd].
  destruct cur as [|x [|y [|wd [|h [|z l]]]]]; try discriminate Hlen.
  assert (Hp : py_eq (VTuple [x; y]) (VTuple [x; y]) = true)
    by apply py_eq_refl.
  assert (Hs : py_eq (VTuple [wd; h]) (VTuple [wd; h]) = true)
    by apply py_eq_refl.
  split; [reflexivity|].
  unfold after_call. run_setter. rewrite Hg2. run_setter.
  unfold changed_and_given, py_ne. rewrite Hp, Hs. cbn.
  rewrite <- !app_assoc. split; reflexivity.
Qed.

End CanvasLifecycle.

(** ** A Canvas on the abstract backend *)

Section AbstractBackendCanvas.

Context {A : Type} {app_class : Application A CanvasBackendObj}.

(** X11.  A canvas realized on the abstract [CanvasBackend] itself:
    [native] returns the backend object, and every other delegated
    operation (reading or setting the geometry, setting the title,
    [show], [update], [close]) raises [NotImplementedError]. *)
Theorem abstract_backend_canvas : forall (w : World A CanvasBackendObj) b,
  _backend (self w) = Some b ->
  let unimplemented := Err (Raise NotImplementedError (Some "")) in
  fst (native w) = Ok (VObj (backend_id b)) /\
  fst (geometry w) = unimplemented /\
  (forall args, py_len args = Ok 2%nat \/ py_len args = Ok 4%nat ->
     fst (geometry_set args w) = unimplemented) /\
  (forall t, fst (title_set t w) = unimplemented) /\
  (forall visible, fst (show visible w) = unimplemented) /\
  fst (update w) = unimplemented /\
  fst (close w) = unimplemented.
Proof.
  intros w b Hb unimplemented. subst unimplemented.
  assert (Hcall : forall c (w0 : World A CanvasBackendObj),
            _backend (self w0) = Some b -> c <> GetNativeCanvas ->
            fst (call_backend c w0) = Err (Raise NotImplementedError (Some ""))).
  { intros c w0 H0 Hc. rewrite (call_backend_realized w0 c b H0).
    destruct c; try reflexivity. contradiction. }
  unfold native, geometry, show, update, close, title_set, bind, update_self.
  split.
  { rewrite (call_backend_realized w GetNativeCanvas b Hb). reflexivity. }
  split; [apply Hcall; [exact Hb | discriminate]|].
  split.
  { intros args [Hlen|Hlen].
    - destruct (py_len_two args Hlen) as (x & y & Hit & _).
      unfold geometry_set, bind, lift, backend_attr, apply_backend.
      rewrite Hlen. cbn [Nat.eqb]. rewrite Hb, Hit. reflexivity.
    - unfold geometry_set, bind, lift. rewrite Hlen. cbn [Nat.eqb].
      rewrite (call_backend_realized w GetGeometry b Hb). reflexivity. }
  split.
  { intros t.
    rewrite (call_backend_realized _ (SetTitle t) b) by exact Hb. reflexivity. }
  split; [intros visible; apply Hcall; [exact Hb | discriminate]|].
  split; [apply Hcall; [exact Hb | discriminate]|].
  rewrite (call_backend_realized w Close b Hb). reflexivity.
Qed.

End AbstractBackendCanvas.

(** ** More on the event payloads *)

Section PayloadConversions.

Context {E : Type} {event_class : EventBase E}.

(** X12.  The base class comes first.  When [Event.__init__] raises,
    the constructors of MouseEvent, ResizeEvent and PaintEvent raise
    the same exception whatever their other arguments are, malformed
    ones included. *)
Theorem payload_base_failure : forall type kwds e,
  Event_init type kwds = Err e ->
  (forall pos button modifiers delta native,
     MouseEvent.__init__ type pos button modifiers delta native kwds = Err e) /\
  (forall size native, ResizeEvent.__init__ type size native kwds = Err e) /\
  (forall region native, PaintEvent.__init__ type region native kwds = Err e).
Proof.
  intros type kwds e He. split; [|split]; intros;
    unfold MouseEvent.__init__, ResizeEvent.__init__, PaintEvent.__init__;
    rewrite He; reflexivity.
Qed.

(** X13.  Whatever the arguments were, a MouseEvent that was built has
    a position that is a tuple of two elements, a button that is
    [None] or an int, modifiers that are a tuple, and a delta that is
    an int. *)
Theorem MouseEvent_shape :
  forall type pos button modifiers delta native kwds e,
    MouseEvent.__init__ type pos button modifiers delta native kwds = Ok e ->
    (exists x y, MouseEvent.pos e = VTuple [x; y]) /\
    (MouseEvent.button e = VNone \/ exists n, MouseEvent.button e = VInt n) /\
    (exists l, MouseEvent.modifiers e = VTuple l) /\
    (exists d, MouseEvent.delta e = VInt d).
Proof.
  intros type pos button modifiers delta native kwds e He.
  destruct (MouseEvent_init_inv _ _ _ _ _ _ _ _ He) as (Hp & Hb & Hm & Hd).
  split; [|split; [|split]].
  - unfold MouseEvent.pos_or_origin in Hp.
    destruct (arg VNone pos);
      try (injection Hp as <-; eauto; fail);
      (destruct (py_getitem _ 0) as [?|?x]; [discriminate Hp|];
       cbn [res_bind] in Hp;
       destruct (py_getitem _ 1) as [?|?y]; [discriminate Hp|];
       cbn [res_bind] in Hp; injection Hp as <-; eauto).
  - unfold MouseEvent.int_or_None in Hb.
    destruct (arg VNone button);
      try (injection Hb as <-; auto; fail);
      (destruct (py_int _) as [?|?k]; [discriminate Hb|];
       cbn [res_bind] in Hb; injection Hb as <-; eauto).
  - unfold py_tuple in Hm.
    destruct (py_iter _) as [ex|l]; [discriminate Hm|].
    cbn [res_bind] in Hm. injection Hm as <-. eauto.
  - destruct (py_int _) as [ex|d]; [discriminate Hd|].
    cbn [res_bind] in Hd. injection Hd as <-. eauto.
Qed.

(** X14.  A button or a delta that [int] refuses is refused by the
    constructor: no event is built, and when the base class and the
    arguments before it were accepted the exception is the one [int]
    raised.  [delta=None] is such a delta, while [button=None] is
    accepted. *)
Theorem MouseEvent_int_fields : forall type pos modifiers native kwds v ex,
  py_int v = Err ex ->
  (v <> VNone ->
   forall delta,
     is_ok (MouseEvent.__init__ type pos (Some v) modifiers delta native kwds)
       = false /\
     (forall base p,
        Event_init type kwds = Ok base ->
        MouseEvent.pos_or_origin (arg VNone pos) = Ok p ->
        MouseEvent.__init__ type pos (Some v) modifiers delta native kwds
          = Err ex)) /\
  (forall button,
     is_ok (MouseEvent.__init__ type pos button modifiers (Some v) native kwds)
       = false /\
     (forall base p b m,
        Event_init type kwds = Ok base ->
        MouseEvent.pos_or_origin (arg VNone pos) = Ok p ->
        MouseEvent.int_or_None (arg VNone button) = Ok b ->
        py_tuple (py_or (arg VNone modifiers) (VTuple [])) = Ok m ->
        MouseEvent.__init__ type pos button modifiers (Some v) native kwds
          = Err ex)).
Proof.
  intros type pos modifiers native kwds v ex Hv. split.
  - intros Hne delta.
    assert (Hb : MouseEvent.int_or_None v = Err ex).
    { unfold MouseEvent.int_or_None.
      destruct v; try contradiction; rewrite Hv; reflexivity. }
    unfold MouseEvent.__init__. cbn [arg]. rewrite Hb. split.
    + destruct (Event_init type kwds); [reflexivity|]. cbn [res_bind].
      destruct (MouseEvent.pos_or_origin _); reflexivity.
    + intros base p Hbase Hp. rewrite Hbase. cbn [res_bind]. rewrite Hp.
      reflexivity.
  - intros button. unfold MouseEvent.__init__. cbn [arg]. rewrite Hv. split.
    + destruct (Event_init type kwds); [reflexivity|]. cbn [res_bind].
      destruct (MouseEvent.pos_or_origin _); [reflexivity|]. cbn [res_bind].
      destruct (MouseEvent.int_or_None _); [reflexivity|]. cbn [res_bind].
      destruct (py_tuple _); reflexivity.
    + intros base p b m Hbase Hp Hb Hm. rewrite Hbase. cbn [res_bind].
      rewrite Hp. cbn [res_bind]. rewrite Hb. cbn [res_bind]. rewrite Hm.
      reflexivity.
Qed.


(** X16.  The size of a ResizeEvent.  A size that cannot be iterated
    ([None], a number, a plain object) is refused.  The size of an
    event that was built is the tuple of the elements of the argument,
    in order, however many they are; and building an event from that
    size again gives the same size. *)
Theorem ResizeEvent_size : forall type size native kwds,
  (sliceable size = false ->
   is_ok (ResizeEvent.__init__ type size native kwds) = false) /\
  (forall e,
     ResizeEvent.__init__ type size native kwds = Ok e ->
     exists l,
       py_iter size = Ok l /\
       ResizeEvent.size e = VTuple l /\
       forall native',
         ResizeEvent.__init__ type (ResizeEvent.size e) native' kwds =
         Ok {| ResizeEvent.base := ResizeEvent.base e;
               ResizeEvent.size := ResizeEvent.size e;
               ResizeEvent.native := arg VNone native' |}).
Proof.
  intros type size native kwds. unfold ResizeEvent.__init__. split.
  - intros Hs.
    destruct (Event_init type kwds); [reflexivity|]. cbn [res_bind].
    destruct size; try discriminate Hs; reflexivity.
  - intros e He.
    destruct (Event_init type kwds) as [ex|base]; [discriminate He|].
    cbn [res_bind] in *. unfold py_tuple in *.
    destruct (py_iter size) as [ex|l]; [discriminate He|].
    cbn [res_bind] in He. injection He as <-.
    exists l. split; [reflexivity|]. split; reflexivity.
Qed.

End PayloadConversions.

(** ** Delegation *)

Section Delegation.

Context {A B : Type} {app_class : Application A B} {backend_class : Backend B}.

(** X17.  On a realized canvas each of [native], [geometry] (read),
    [show], [update] and [close] makes one call on the backend, the
    operation it stands for, and no other.  [native], [geometry],
    [show] and [update] hand back what the backend returned or raised;
    [show()] without an argument asks for [True]; [close] returns
    [None] whatever the backend returned, and raises what it raised. *)
Theorem delegation : forall (w : World A B) b,
  _backend (self w) = Some b ->
  let via c := (fst (invoke c b), after_call w c (snd (invoke c b))) in
  native w = via GetNativeCanvas /\
  geometry w = via GetGeometry /\
  update w = via Update /\
  show None w = via (SetVisible (VBool true)) /\
  (forall v, show (Some v) w = via (SetVisible v)) /\
  snd (close w) = snd (via Close) /\
  fst (close w) =
    match fst (invoke Close b) with
    | Ok _ => Ok VNone
    | Err e => Err e
    end.
Proof.
  intros w b Hb via. subst via.
  unfold native, geometry, update, show, close, bind, ret.
  rewrite !(call_backend_realized w _ b Hb).
  repeat split; try reflexivity.
  - intros v. apply (call_backend_realized w _ b Hb).
  - destruct (invoke Close b) as [[e|v] b']; reflexivity.
  - destruct (invoke Close b) as [[e|v] b']; reflexivity.
Qed.

(** X18.  A geometry that has no length ([None], a number, a plain
    object) makes the setter raise [TypeError] before it looks at the
    backend: there is no call and no change, on a realized canvas and
    on an unrealized one. *)
Theorem geometry_set_unsized : forall (w : World A B) args,
  sliceable args = false ->
  geometry_set args w = (Err (Raise TypeError None), w).
Proof.
  intros w args Hs. unfold geometry_set, bind, lift.
  destruct args; try discriminate Hs; reflexivity.
Qed.

End Delegation.

(** ** More runs on concrete collaborators *)

Lemma realized_forever_witness :
  let b := window 10 10 100 100 in
  let ops := [DoCreateWidget; SetGeometryProp (VTuple [VInt 1; VInt 2; VInt 3]);
              DoClose; DoCreateWidget; SetTitleProp (VStr "t")] in
  _backend (self (realized b)) = Some b /\
  (exists b', _backend (self (run_ops ops (realized b))) = Some b') /\
  instantiations (log (run_ops ops (realized b))) = O.
Proof.
  intros b ops. split; [reflexivity|].
  destruct (@realized_forever nat WindowObj WindowApp WindowBackend
              ops (realized b) b eq_refl) as (H1 & H2 & _).
  split; [exact H1 | exact H2].
Defined.

Lemma unrealized_until_create_widget_witness :
  let w := snd (Canvas_init (app_class := WindowApp) O 1 [VInt 3] None
                  (Some (VBool false)) []) in
  let ops := [DoShow None; SetTitleProp (VStr "t");
              SetGeometryProp (VTuple [VInt 1; VInt 2]); GetNative; DoClose] in
  forallb (fun o => negb (is_create_widget o)) ops = true /\
  _backend (self w) = None /\
  _backend (self (run_ops ops w)) = None /\
  log (run_ops ops w) = log w /\
  _args (self (run_ops ops w)) = _args (self w) /\
  _kwargs (self (run_ops ops w)) = _kwargs (self w).
Proof.
  intros w ops. split; [reflexivity|]. split; [reflexivity|].
  apply (unrealized_until_create_widget ops w); reflexivity.
Defined.

(** A canvas on an application whose backend constructor raises. *)
Lemma create_widget_all_or_nothing_witness :
  let w := snd (Canvas_init (app_class := BrokenApp) O 1 [VInt 3] None
                  (Some (VBool false)) [("x", VInt 1)]) in
  _backend (self w) = None /\
  _args (self w) = Some [VInt 3] /\
  _kwargs (self w) = Some [("x", VInt 1)] /\
  match fst (create_widget w) with
  | Ok _ =>
      (exists b, _backend (self (snd (create_widget w))) = Some b) /\
      _args (self (snd (create_widget w))) = None /\
      _kwargs (self (snd (create_widget w))) = None
  | Err _ =>
      _backend (self (snd (create_widget w))) = None /\
      _args (self (snd (create_widget w))) = Some [VInt 3] /\
      _kwargs (self (snd (create_widget w))) = Some [("x", VInt 1)]
  end.
Proof.
  intros w. split; [reflexivity|]. split; [reflexivity|]. split; [reflexivity|].
  apply (create_widget_all_or_nothing w [VInt 3] [("x", VInt 1)]); reflexivity.
Defined.

Lemma Canvas_init_realizes_witness :
  let built := Canvas_init (app_class := WindowApp) O 1 [VInt 3] None None
                 [("x", VInt 1)] in
  py_truthy (VBool true) = true /\
  @use nat WindowObj WindowApp O = (Ok VNone, O) /\
  @native_app nat WindowObj WindowApp O = (Ok (VObj 1), O) /\
  @backend_module_CanvasBackend nat WindowObj WindowApp
    O 1%positive [VInt 3] [("x", VInt 1)] = (Ok (window 0 0 100 100), 1%nat) /\
  fst built = Ok VNone /\
  log (snd built) = [AppUse; AppNative; NewBackend 1 [VInt 3] [("x", VInt 1)]] /\
  _backend (self (snd built)) = Some (window 0 0 100 100).
Proof.
  intros built.
  split; [reflexivity|]. split; [reflexivity|]. split; [reflexivity|].
  split; [reflexivity|].
  destruct (@Canvas_init_realizes nat WindowObj WindowApp
              O 1%positive [VInt 3] None None [("x", VInt 1)]
              VNone O (VObj 1) O (window 0 0 100 100) 1%nat
              eq_refl eq_refl eq_refl eq_refl) as (H1 & H2 & H3 & _).
  split; [exact H1|]. split; [exact H2 | exact H3].
Defined.

(** The current geometry itself, given as a list. *)
Lemma geometry_set_list_always_writes_witness :
  let b := window 10 10 100 100 in
  let w := realized b in
  _backend (self w) = Some b /\
  invoke GetGeometry b =
    (Ok (VTuple [VInt 10; VInt 10; VInt 100; VInt 100]), b) /\
  VInt 10 <> VNone /\ VInt 100 <> VNone /\
  log (snd (geometry_set (VList [VInt 10; VInt 10; VInt 100; VInt 100]) w)) =
    (log w ++ [BackendCall GetGeometry;
               BackendCall (SetLocation (VInt 10) (VInt 10))]
           ++ (if is_ok (fst (invoke (SetLocation (VInt 10) (VInt 10)) b))
               then [BackendCall (SetSize (VInt 100) (VInt 100))]
               else []))%list.
Proof.
  intros b w.
  split; [reflexivity|]. split; [reflexivity|].
  split; [discriminate|]. split; [discriminate|].
  apply (geometry_set_list_always_writes w b b (VInt 10) (VInt 10)
           (VInt 100) (VInt 100) [VInt 10; VInt 10; VInt 100; VInt 100]);
    try reflexivity; discriminate.
Defined.

(** An embedded widget asked to move and to grow: the move raises and
    the resize, which it could do, is never asked for. *)
Lemma geometry_set_four_move_raises_witness :
  let b := embedded_widget in
  let w := realized b in
  let cur := [VInt 0; VInt 0; VInt 100; VInt 100] in
  let e := Raise NotImplementedError (Some "") in
  _backend (self w) = Some b /\
  invoke GetGeometry b = (Ok (VTuple cur), b) /\
  changed_and_given (VTuple [VInt 5; VInt 5]) (VTuple (firstn 2 cur)) = Ok true /\
  invoke (SetLocation (VInt 5) (VInt 5)) b = (Err e, b) /\
  geometry_set (VTuple [VInt 5; VInt 5; VInt 300; VInt 200]) w =
    (Err e, after_call (after_call w GetGeometry b)
              (SetLocation (VInt 5) (VInt 5)) b).
Proof.
  intros b w cur e.
  split; [reflexivity|]. split; [reflexivity|]. split; [reflexivity|].
  split; [reflexivity|].
  apply (geometry_set_four_move_raises w b b b (VInt 5) (VInt 5)
           (VInt 300) (VInt 200) cur e); reflexivity.
Defined.

Lemma geometry_set_query_raises_witness :
  let b := CanvasBackend_init 3 1 [] [] in
  let w := realized b in
  let args := VTuple [VInt 1; VInt 2; VInt 3; VInt 4] in
  let e := Raise NotImplementedError (Some "") in
  _backend (self w) = Some b /\
  py_len args = Ok 4%nat /\
  invoke GetGeometry b = (Err e, b) /\
  geometry_set args w = (Err e, after_call w GetGeometry b).
Proof.
  intros b w args e.
  split; [reflexivity|]. split; [reflexivity|]. split; [reflexivity|].
  apply (geometry_set_query_raises w b b args e); reflexivity.
Defined.

Lemma geometry_set_unsliceable_answer_witness :
  let b := geometryless in
  let w := realized b in
  _backend (self w) = Some b /\
  invoke GetGeometry b = (Ok VNone, b) /\
  sliceable VNone = false /\
  geometry_set (VTuple [VInt 1; VInt 2; VInt 3; VInt 4]) w =
    (Err (Raise TypeError None), after_call w GetGeometry b).
Proof.
  intros b w.
  split; [reflexivity|]. split; [reflexivity|]. split; [reflexivity|].
  apply (geometry_set_unsliceable_answer w b b
           (VInt 1) (VInt 2) (VInt 3) (VInt 4) VNone); reflexivity.
Defined.

Lemma geometry_read_then_write_witness :
  let b := window 10 20 300 200 in
  let w := realized b in
  let cur := [VInt 10; VInt 20; VInt 300; VInt 200] in
  _backend (self w) = Some b /\
  invoke GetGeometry b = (Ok (VTuple cur), b) /\
  List.length cur = 4%nat /\
  fst (geometry w) = Ok (VTuple cur) /\
  fst (geometry_set (VTuple cur) (snd (geometry w))) = Ok VNone /\
  log (snd (geometry_set (VTuple cur) (snd (geometry w)))) =
    (log w ++ [BackendCall GetGeometry; BackendCall GetGeometry])%list.
Proof.
  intros b w cur.
  split; [reflexivity|]. split; [reflexivity|]. split; [reflexivity|].
  apply (geometry_read_then_write w b b b cur); reflexivity.
Defined.

Lemma abstract_backend_canvas_witness :
  let b := CanvasBackend_init 3 1 [] [] in
  let w := realized b in
  _backend (self w) = Some b /\
  fst (native w) = Ok (VObj 3) /\
  fst (update w) = Err (Raise NotImplementedError (Some "")).
Proof.
  intros b w. split; [reflexivity|].
  destruct (@abstract_backend_canvas nat w b eq_refl)
    as (Hn & _ & _ & _ & _ & Hu & _).
  split; [exact Hn | exact Hu].
Defined.

(** A base class that refuses the type [None]. *)
Lemma payload_base_failure_witness :
  let e := Raise TypeError (Some "type must be a string") in
  @Event_init EventObj StrictEvent VNone [] = Err e /\
  @ResizeEvent.__init__ EventObj StrictEvent VNone
    (VTuple [VInt 800; VInt 600]) None [] = Err e /\
  @PaintEvent.__init__ EventObj StrictEvent VNone None None [] = Err e.
Proof.
  intros e. split; [reflexivity|].
  destruct (@payload_base_failure EventObj StrictEvent VNone [] e eq_refl)
    as (_ & Hr & Hp).
  split; [apply Hr | apply Hp].
Defined.

(** A string position, a boolean button, list modifiers, a string delta. *)
Lemma MouseEvent_shape_witness :
  let built :=
    {| MouseEvent.base := {| event_type := VStr "mouse_wheel"; event_attrs := [] |};
       MouseEvent._pos := VTuple [VStr "a"; VStr "b"];
       MouseEvent._button := VInt 1;
       MouseEvent._modifiers := VTuple [VInt 7];
       MouseEvent._delta := VInt (-3);
       MouseEvent.native := VNone |} in
  MouseEvent.__init__ (VStr "mouse_wheel") (Some (VStr "abc"))
    (Some (VBool true)) (Some (VList [VInt 7])) (Some (VStr " -3 ")) None [] =
    Ok built /\
  (exists x y, MouseEvent.pos built = VTuple [x; y]) /\
  (MouseEvent.button built = VNone \/
   exists n, MouseEvent.button built = VInt n) /\
  (exists l, MouseEvent.modifiers built = VTuple l) /\
  (exists d, MouseEvent.delta built = VInt d).
Proof.
  intros built. split; [reflexivity|].
  apply (MouseEvent_shape (VStr "mouse_wheel") (Some (VStr "abc"))
           (Some (VBool true)) (Some (VList [VInt 7])) (Some (VStr " -3 "))
           None [] built).
  reflexivity.
Defined.

(** [delta=None]. *)
Lemma MouseEvent_int_fields_witness :
  py_int VNone = Err (Raise TypeError None) /\
  MouseEvent.__init__ (VStr "mouse_wheel") None None None (Some VNone) None [] =
    Err (Raise TypeError None).
Proof.
  split; [reflexivity|].
  destruct (MouseEvent_int_fields (VStr "mouse_wheel") None None None []
              VNone (Raise TypeError None) eq_refl) as [_ Hd].
  destruct (Hd None) as [_ Hrun].
  apply (Hrun {| event_type := VStr "mouse_wheel"; event_attrs := [] |}
              (VTuple [VInt 0; VInt 0]) VNone (VTuple []));
    reflexivity.
Defined.

Lemma delegation_witness :
  let b := window 10 20 300 200 in
  let w := realized b in
  _backend (self w) = Some b /\
  geometry w =
    (Ok (VTuple [VInt 10; VInt 20; VInt 300; VInt 200]),
     after_call w GetGeometry b) /\
  log (snd (show None w)) = [BackendCall (SetVisible (VBool true))].
Proof.
  intros b w. split; [reflexivity|].
  destruct (@delegation nat WindowObj WindowBackend w b eq_refl)
    as (_ & Hg & _ & Hs & _).
  split; [exact Hg|]. rewrite Hs. reflexivity.
Defined.

Lemma geometry_set_unsized_witness :
  let w := realized (window 10 20 300 200) in
  sliceable (VInt 5) = false /\
  geometry_set (VInt 5) w = (Err (Raise TypeError None), w).
Proof.
  intros w. split; [reflexivity|].
  apply (geometry_set_unsized w (VInt 5)). reflexivity.
Defined.
